(** * A vector-document storage adapter over a Milvus client

    Shallow embedding of [repositories/datastore/milvus.go] and the
    properties of its collection, upsert and search operations.

    The Go code talks to two long-lived handles, a [client.Client] and a
    [secondary.TextEncoder]. Both are interfaces, so both are method tables
    here, acting on an abstract world [W] that stands for whatever the
    backend and the encoder remember between calls. Every call that leaves
    the process is appended to a trace, which is what the theorems about
    "which request was issued, and when" talk about. *)

From Stdlib Require Import ZArith Lia DecimalString.
From stdpp Require Import base option list strings gmap.

Local Open Scope Z_scope.

(** ** Go runtime: errors, formatting, panics *)

(** An [error] value carries a message and, when it was built with the
    [%w] verb, the error it wraps. A nil [error] is [None]. *)
Inductive error : Type :=
| errorString (s : string)
| wrapError (msg : string) (err : error).

Definition Error (e : error) : string :=
  match e with
  | errorString s => s
  | wrapError msg _ => msg
  end.

Definition Unwrap (e : error) : option error :=
  match e with
  | errorString _ => None
  | wrapError _ err => Some err
  end.

(** [fmt.Errorf(prefix + "%w", err)] *)
Definition Errorf_w (prefix : string) (err : error) : error :=
  wrapError (prefix +:+ Error err) err.

(** [fmt.Sprintf("%d", n)] *)
Definition Sprintf_d (n : Z) : string :=
  NilZero.string_of_int (Z.to_int n).

Inductive panic : Type :=
| IndexOutOfRange (index : Z) (len : nat)
| NilDereference.

Inductive result (A : Type) : Type :=
| Ret (a : A)
| Panic (p : panic).
Arguments Ret {A} a.
Arguments Panic {A} p.

(** ** Package [entity] of the Milvus SDK *)
Module entity.

Inductive FieldType : Type :=
| FieldTypeBool | FieldTypeInt64 | FieldTypeFloat | FieldTypeString
| FieldTypeVarChar | FieldTypeBinaryVector | FieldTypeFloatVector.

Inductive MetricType : Type := L2 | IP | COSINE | HAMMING | JACCARD.

Inductive ConsistencyLevel : Type :=
| ClStrong | ClSession | ClBounded | ClEventually | ClCustomized.

(** The members of [entity.Field] and [entity.Schema] that [defineSchema]
    writes; a member the composite literal omits has Go's zero value. *)
Record Field : Type := {
  Name : string;
  DataType : FieldType;
  PrimaryKey : bool;
  AutoID : bool;
  TypeParams : gmap string string
}.

Record Schema : Type := {
  CollectionName : string;
  Description : string;
  SchemaAutoID : bool;
  Fields : list Field
}.

(** The member of [entity.Collection] that [List] reads. *)
Record Collection : Type := {
  collection_Name : string
}.

(** What the adapter uses of the package without seeing its code: the
    column, index and search-parameter types with their constructors and
    methods, and three constants. [GetAsString] is a method that can
    panic instead of returning, as the SDK's string column does when it
    is asked for the index just past its last value. *)
Class API : Type := {
  float32 : Type;
  Column : Type;
  Index : Type;
  SearchParam : Type;
  DefaultShardNumber : Z;
  TypeParamMaxLength : string;
  TypeParamDim : string;
  NewColumnVarChar : string -> list string -> Column;
  NewColumnFloatVector : string -> Z -> list (list float32) -> Column;
  ColumnName : Column -> string;
  ColumnLen : Column -> Z;
  ColumnGetAsString : Column -> Z -> result (string * option error);
  NewIndexIvfFlat : MetricType -> Z -> option Index * option error;
  NewIndexIvfFlatSearchParam : Z -> option SearchParam * option error
}.

End entity.

(** ** Package [client] of the Milvus SDK *)
Module client.
Section WithEntity.
Context `{entity.API}.

(** The members of [client.SearchQueryOption] that the adapter's option
    function assigns. *)
Record SearchQueryOption : Type := {
  ConsistencyLevel : entity.ConsistencyLevel;
  Limit : Z;
  Offset : Z;
  IgnoreGrowing : bool
}.

(** Assignments to one member, [option.Limit = n] and the like. *)
Definition set_Limit (n : Z) (o : SearchQueryOption) : SearchQueryOption :=
  {| ConsistencyLevel := ConsistencyLevel o; Limit := n;
     Offset := Offset o; IgnoreGrowing := IgnoreGrowing o |}.
Definition set_Offset (n : Z) (o : SearchQueryOption) : SearchQueryOption :=
  {| ConsistencyLevel := ConsistencyLevel o; Limit := Limit o;
     Offset := n; IgnoreGrowing := IgnoreGrowing o |}.
Definition set_ConsistencyLevel (c : entity.ConsistencyLevel)
    (o : SearchQueryOption) : SearchQueryOption :=
  {| ConsistencyLevel := c; Limit := Limit o;
     Offset := Offset o; IgnoreGrowing := IgnoreGrowing o |}.
Definition set_IgnoreGrowing (b : bool) (o : SearchQueryOption)
  : SearchQueryOption :=
  {| ConsistencyLevel := ConsistencyLevel o; Limit := Limit o;
     Offset := Offset o; IgnoreGrowing := b |}.

(** A [SearchQueryOptionFunc] mutates the option record it is handed. *)
Definition SearchQueryOptionFunc : Type :=
  SearchQueryOption -> SearchQueryOption.

(** A [ResultSet] is used through its one method [GetColumn], the
    lookup of a column by field name; the column is nil ([None]) when
    the set has none of that name. *)
Record ResultSet : Type := {
  GetColumn : string -> option entity.Column
}.

(** The member of [client.SearchResult] that the adapter reads. *)
Record SearchResult : Type := {
  Fields : ResultSet
}.

(** The arguments of one [Client.Search] call, in order. *)
Record SearchRequest : Type := {
  collName : string;
  partitions : list string;
  expr : string;
  outputFields : list string;
  vectors : list (list entity.float32);
  vectorField : string;
  metricType : entity.MetricType;
  topK : Z;
  sp : option entity.SearchParam;
  opts : list SearchQueryOptionFunc
}.

(** The option record a request resolves to when the SDK runs the
    option functions, in order, over its own starting record. *)
Definition resolve (base : SearchQueryOption) (req : SearchRequest)
  : SearchQueryOption :=
  fold_left (fun o f => f o) (opts req) base.

(** The methods of [client.Client] that the adapter calls. Each takes
    the world and gives it back with Go's result tuple. *)
Record Client (W : Type) : Type := {
  CreateCollection : entity.Schema -> Z -> W -> option error * W;
  CreateIndex :
    string -> string -> option entity.Index -> bool -> W -> option error * W;
  DropCollection : string -> W -> option error * W;
  ListCollections : W -> (list entity.Collection * option error) * W;
  Upsert :
    string -> string -> list entity.Column -> W ->
    (option entity.Column * option error) * W;
  LoadCollection : string -> bool -> W -> option error * W;
  Search : SearchRequest -> W -> (list SearchResult * option error) * W;
  ReleaseCollection : string -> W -> option error * W
}.

End WithEntity.
Arguments CreateCollection {_ W} _ _ _ _.
Arguments CreateIndex {_ W} _ _ _ _ _ _.
Arguments DropCollection {_ W} _ _ _.
Arguments ListCollections {_ W} _ _.
Arguments Upsert {_ W} _ _ _ _ _.
Arguments LoadCollection {_ W} _ _ _ _.
Arguments Search {_ W} _ _ _.
Arguments ReleaseCollection {_ W} _ _ _.
End client.

(** ** Package [core/domain] *)
Module domain.
Record Document : Type := {
  ID : string;
  Title : string;
  Content : string;
  Category : string
}.
End domain.

(** ** Package [core/ports/secondary] *)
Module secondary.
Section WithEntity.
Context `{entity.API}.
Record TextEncoder (W : Type) : Type := {
  Encode : string -> W -> (list entity.float32 * option error) * W
}.
End WithEntity.
Arguments Encode {_ W} _ _ _.
End secondary.

(** ** Package [datastore]: the adapter *)
Section Datastore.
Context `{entity.API}.
Context {W : Type}.

(** *** Calls that leave the process, and what came back *)
Inductive Call : Type :=
| CallEncode (text : string)
| CallCreateCollection (schema : entity.Schema) (shardNum : Z)
| CallCreateIndex
    (collName fieldName : string) (idx : option entity.Index) (async : bool)
| CallDropCollection (collName : string)
| CallListCollections
| CallUpsert
    (collName partitionName : string) (columns : list entity.Column)
| CallLoadCollection (collName : string) (async : bool)
| CallSearch (req : client.SearchRequest)
| CallReleaseCollection (collName : string).

Inductive Reply : Type :=
| ReplyError (err : option error)
| ReplyVector (v : list entity.float32) (err : option error)
| ReplyCollections (l : list entity.Collection) (err : option error)
| ReplyColumn (c : option entity.Column) (err : option error)
| ReplyResults (rs : list client.SearchResult) (err : option error).

Definition failure (r : Reply) : option error :=
  match r with
  | ReplyError err | ReplyVector _ err | ReplyCollections _ err
  | ReplyColumn _ err | ReplyResults _ err => err
  end.

Record Event : Type := {
  request : Call;
  reply : Reply
}.

Record state : Type := {
  world : W;
  trace : list Event
}.

(** *** The monad of Go statements: world, trace, and panics *)
Definition Go (A : Type) : Type := state -> result A * state.

Definition ret {A : Type} (a : A) : Go A := fun s => (Ret a, s).

Definition bind {A B : Type} (c : Go A) (k : A -> Go B) : Go B :=
  fun s =>
    match c s with
    | (Ret a, s') => k a s'
    | (Panic p, s') => (Panic p, s')
    end.

Definition throw {A : Type} (p : panic) : Go A := fun s => (Panic p, s).

(** An outgoing call: run it on the world, record it with its reply. *)
Definition call {A : Type} (c : Call) (r : A -> Reply) (f : W -> A * W)
  : Go A :=
  fun s =>
    let (a, w) := f (world s) in
    (Ret a,
     {| world := w;
        trace := trace s ++ [ {| request := c; reply := r a |} ] |}).

(** Classifiers of calls. *)
Definition is_encode (c : Call) : bool :=
  match c with CallEncode _ => true | _ => false end.
Definition is_create_collection (c : Call) : bool :=
  match c with CallCreateCollection _ _ => true | _ => false end.
Definition is_create_index (c : Call) : bool :=
  match c with CallCreateIndex _ _ _ _ => true | _ => false end.
Definition is_drop (c : Call) : bool :=
  match c with CallDropCollection _ => true | _ => false end.
Definition is_upsert (c : Call) : bool :=
  match c with CallUpsert _ _ _ => true | _ => false end.
Definition is_search (c : Call) : bool :=
  match c with CallSearch _ => true | _ => false end.
Definition is_release (c : Call) : bool :=
  match c with CallReleaseCollection _ => true | _ => false end.
Definition is_load (c : Call) : bool :=
  match c with CallLoadCollection _ _ => true | _ => false end.
Definition is_list (c : Call) : bool :=
  match c with CallListCollections => true | _ => false end.

(** How many events of a trace are calls of a given kind. *)
Fixpoint count (p : Call -> bool) (t : list Event) : nat :=
  match t with
  | [] => 0
  | e :: t => ((if p (request e) then 1 else 0) + count p t)%nat
  end.

(** The search requests of a trace, in order. *)
Definition search_requests (t : list Event) : list client.SearchRequest :=
  omap (fun e => match request e with
                 | CallSearch req => Some req
                 | _ => None
                 end) t.

(** *** The repository struct *)
Record DatastoreMilvusRepository : Type := {
  Client : client.Client W;
  Encoder : secondary.TextEncoder W
}.

Definition NewDatastoreMilvusRepository
    (milvusClient : client.Client W) (encoder : secondary.TextEncoder W)
  : DatastoreMilvusRepository :=
  {| Client := milvusClient; Encoder := encoder |}.

End Datastore.
Arguments Call {_}.
Arguments Reply {_}.
Arguments Event {_}.
Arguments state {_} W.
Arguments Go {_} W A.
Arguments DatastoreMilvusRepository {_} W.

Declare Scope go_scope.
Delimit Scope go_scope with go.
Notation "'let*' x ':=' c 'in' k" := (bind c (fun x => k))
  (at level 10, x pattern, c at level 100, k at level 200) : go_scope.

Section Adapter.
Context `{entity.API}.
Context {W : Type}.
Local Open Scope go_scope.

Implicit Types (m : DatastoreMilvusRepository W).

(** *** The two handles, with every call recorded *)
Definition Encoder_Encode m (text : string)
  : Go W (list entity.float32 * option error) :=
  call (CallEncode text) (fun '(v, err) => ReplyVector v err)
       (secondary.Encode (Encoder m) text).

Definition Client_CreateCollection m (schema : entity.Schema) (shardNum : Z)
  : Go W (option error) :=
  call (CallCreateCollection schema shardNum) ReplyError
       (client.CreateCollection (Client m) schema shardNum).

Definition Client_CreateIndex m (collName fieldName : string)
    (idx : option entity.Index) (async : bool) : Go W (option error) :=
  call (CallCreateIndex collName fieldName idx async) ReplyError
       (client.CreateIndex (Client m) collName fieldName idx async).

Definition Client_DropCollection m (collName : string) : Go W (option error) :=
  call (CallDropCollection collName) ReplyError
       (client.DropCollection (Client m) collName).

Definition Client_ListCollections m
  : Go W (list entity.Collection * option error) :=
  call CallListCollections (fun '(l, err) => ReplyCollections l err)
       (client.ListCollections (Client m)).

Definition Client_Upsert m (collName partitionName : string)
    (columns : list entity.Column)
  : Go W (option entity.Column * option error) :=
  call (CallUpsert collName partitionName columns)
       (fun '(c, err) => ReplyColumn c err)
       (client.Upsert (Client m) collName partitionName columns).

Definition Client_LoadCollection m (collName : string) (async : bool)
  : Go W (option error) :=
  call (CallLoadCollection collName async) ReplyError
       (client.LoadCollection (Client m) collName async).

Definition Client_Search m (req : client.SearchRequest)
  : Go W (list client.SearchResult * option error) :=
  call (CallSearch req) (fun '(rs, err) => ReplyResults rs err)
       (client.Search (Client m) req).

Definition Client_ReleaseCollection m (collName : string)
  : Go W (option error) :=
  call (CallReleaseCollection collName) ReplyError
       (client.ReleaseCollection (Client m) collName).

(** *** Indexing and method calls that can panic *)

(** [l[i]] *)
Definition index {A : Type} (l : list A) (i : Z) : Go W A :=
  match (if 0 <=? i then l !! Z.to_nat i else None) with
  | Some x => ret x
  | None => throw (IndexOutOfRange i (length l))
  end.

(** [c.Len()] and [c.GetAsString(i)] on a column held in an interface
    variable: a nil interface has no method to call, and a panic inside
    the method is a panic of the caller. *)
Definition Len (c : option entity.Column) : Go W Z :=
  match c with
  | Some c => ret (entity.ColumnLen c)
  | None => throw NilDereference
  end.

Definition GetAsString (c : option entity.Column) (i : Z)
  : Go W (string * option error) :=
  match c with
  | Some c =>
      match entity.ColumnGetAsString c i with
      | Ret r => ret r
      | Panic p => throw p
      end
  | None => throw NilDereference
  end.

(** *** [defineSchema] *)
Definition defineSchema (collectionName : string) : entity.Schema :=
  {| entity.CollectionName := collectionName;
     entity.Description := "";
     entity.SchemaAutoID := false;
     entity.Fields := [
       {| entity.Name := "id";
          entity.DataType := entity.FieldTypeVarChar;
          entity.PrimaryKey := true;
          entity.AutoID := false;
          entity.TypeParams := {[ entity.TypeParamMaxLength := Sprintf_d 255 ]} |};
       {| entity.Name := "title";
          entity.DataType := entity.FieldTypeVarChar;
          entity.PrimaryKey := false;
          entity.AutoID := false;
          entity.TypeParams := {[ entity.TypeParamMaxLength := Sprintf_d 255 ]} |};
       {| entity.Name := "content";
          entity.DataType := entity.FieldTypeVarChar;
          entity.PrimaryKey := false;
          entity.AutoID := false;
          entity.TypeParams := {[ entity.TypeParamMaxLength := Sprintf_d 3000 ]} |};
       {| entity.Name := "category";
          entity.DataType := entity.FieldTypeVarChar;
          entity.PrimaryKey := false;
          entity.AutoID := false;
          entity.TypeParams := {[ entity.TypeParamMaxLength := Sprintf_d 100 ]} |};
       (* PrimaryKey and AutoID are not written for this field *)
       {| entity.Name := "embedding";
          entity.DataType := entity.FieldTypeFloatVector;
          entity.PrimaryKey := false;
          entity.AutoID := false;
          entity.TypeParams := {[ entity.TypeParamDim := Sprintf_d 4096 ]} |}
     ] |}.

(** *** [buildIndex] *)
Definition buildIndex m (collectionName : string) : Go W (option error) :=
  let (idx, err) := entity.NewIndexIvfFlat entity.COSINE 1024 in
  match err with
  | Some err =>
      ret (Some (Errorf_w "fail to create IVF flat index parameter: " err))
  | None =>
      let* err := Client_CreateIndex m collectionName "embedding" idx false in
      match err with
      | Some err => ret (Some (Errorf_w "fail to create index: " err))
      | None => ret None
      end
  end.

(** *** [CreateCollection] *)
Definition CreateCollection m (collectionName : string) : Go W (option error) :=
  let schema := defineSchema collectionName in
  let* err := Client_CreateCollection m schema entity.DefaultShardNumber in
  match err with
  | Some err => ret (Some (Errorf_w "failed to create collection: " err))
  | None =>
      let* err := buildIndex m collectionName in
      match err with
      | Some err => ret (Some (Errorf_w "failed to build index: " err))
      | None => ret None
      end
  end.

(** *** [DeleteCollection] *)
Definition DeleteCollection m (collectionName : string) : Go W (option error) :=
  let* err := Client_DropCollection m collectionName in
  match err with
  | Some err => ret (Some (Errorf_w "failed to drop collection: " err))
  | None => ret None
  end.

(** *** [List] *)
Definition List m : Go W (list string * option error) :=
  let* (listColl, err) := Client_ListCollections m in
  match err with
  | Some err => ret ([], Some (Errorf_w "failed to list collections: " err))
  | None =>
      let collections :=
        fold_left (fun collections collection =>
                     collections ++ [entity.collection_Name collection])
                  listColl [] in
      ret (collections, None)
  end.

(** *** [UpsertDocuments] *)

(** The five slices the loop appends to. *)
Record lists : Type := {
  idList : list string;
  titleList : list string;
  contentList : list string;
  categoryList : list string;
  embeddingList : list (list entity.float32)
}.

(** The [for _, document := range documents] loop. It leaves either with
    the [return] in its body ([inl]) or by running off the end of the
    slice ([inr], the slices as they then are). *)
Fixpoint UpsertDocuments_loop m (documents : list domain.Document)
    (l : lists) : Go W (error + lists) :=
  match documents with
  | [] => ret (inr l)
  | document :: documents =>
      let* (encodedContent, err) :=
        Encoder_Encode m (domain.Content document) in
      match err with
      | Some err => ret (inl (Errorf_w "fail to encode content: " err))
      | None =>
          UpsertDocuments_loop m documents
            {| idList := idList l ++ [domain.ID document];
               titleList := titleList l ++ [domain.Title document];
               contentList := contentList l ++ [domain.Content document];
               categoryList := categoryList l ++ [domain.Category document];
               embeddingList := embeddingList l ++ [encodedContent] |}
      end
  end.

Definition UpsertDocuments m (collectionName : string)
    (documents : list domain.Document) : Go W (option error) :=
  let* r :=
    UpsertDocuments_loop m documents
      {| idList := []; titleList := []; contentList := [];
         categoryList := []; embeddingList := [] |} in
  match r with
  | inl err => ret (Some err)
  | inr l =>
      let idColumn := entity.NewColumnVarChar "id" (idList l) in
      let titleColumn := entity.NewColumnVarChar "title" (titleList l) in
      let contentColumn := entity.NewColumnVarChar "content" (contentList l) in
      let categoryColumn :=
        entity.NewColumnVarChar "category" (categoryList l) in
      let embeddingColumn :=
        entity.NewColumnFloatVector "embedding" 4096 (embeddingList l) in
      let* (_, err) :=
        Client_Upsert m collectionName ""
          [idColumn; titleColumn; contentColumn; categoryColumn;
           embeddingColumn] in
      match err with
      | Some err => ret (Some (Errorf_w "fail to upsert data, err: " err))
      | None => ret None
      end
  end.

(** *** [Search] *)

(** The function literal handed to [client.SearchQueryOptionFunc]. *)
Definition opt : client.SearchQueryOptionFunc :=
  fun option =>
    let option := client.set_Limit 3 option in
    let option := client.set_Offset 0 option in
    let option := client.set_ConsistencyLevel entity.ClStrong option in
    let option := client.set_IgnoreGrowing false option in
    option.

(** The [for i := 0; i < titleList.Len(); i++] loop, entered with [i] and
    with [remaining] iterations to go: a column's length does not change
    while the loop runs, so the loop makes [titleList.Len()] rounds. *)
Fixpoint Search_loop (remaining : nat) (i : Z)
    (titleList contentList categoryList : option entity.Column)
    (documents : list domain.Document) : Go W (list domain.Document) :=
  match remaining with
  | O => ret documents
  | S remaining =>
      let* (title, _) := GetAsString titleList i in
      let* (content, _) := GetAsString contentList i in
      let* (category, _) := GetAsString categoryList i in
      Search_loop remaining (i + 1) titleList contentList categoryList
        (documents ++ [ {| domain.ID := "";
                           domain.Title := title;
                           domain.Content := content;
                           domain.Category := category |} ])
  end.

(** The arguments of the [m.Client.Search] call. *)
Definition Search_request (collectionName : string)
    (encodedQuery : list entity.float32) (sp : option entity.SearchParam)
  : client.SearchRequest :=
  {| client.collName := collectionName;
     client.partitions := [];
     client.expr := "";
     client.outputFields := ["title"; "content"; "category"];
     client.vectors := [encodedQuery];
     client.vectorField := "embedding";
     client.metricType := entity.COSINE;
     client.topK := 10;
     client.sp := sp;
     client.opts := [opt] |}.

(** From [fields.GetColumn("title")] to the end of the loop. *)
Definition Search_decode (fields : client.ResultSet)
  : Go W (list domain.Document) :=
  let titleList := client.GetColumn fields "title" in
  let contentList := client.GetColumn fields "content" in
  let categoryList := client.GetColumn fields "category" in
  let* n := Len titleList in
  Search_loop (Z.to_nat n) 0 titleList contentList categoryList [].

Definition Search m (collectionName query : string)
  : Go W (list domain.Document * option error) :=
  let* (encodedQuery, err) := Encoder_Encode m query in
  match err with
  | Some err => ret ([], Some (Errorf_w "fail to encode query: " err))
  | None =>
  let* err := Client_LoadCollection m collectionName false in
  match err with
  | Some err => ret ([], Some (Errorf_w "failed to load collection: " err))
  | None =>
  let (sp, _) := entity.NewIndexIvfFlatSearchParam 10 in
  let* (searchResult, err) :=
    Client_Search m (Search_request collectionName encodedQuery sp) in
  match err with
  | Some err => ret ([], Some (Errorf_w "fail to search collection: " err))
  | None =>
  let* first := index searchResult 0 in
  let fields := client.Fields first in
  let* documents := Search_decode fields in
  let* err := Client_ReleaseCollection m collectionName in
  match err with
  | Some err => ret ([], Some (Errorf_w "failed to release collection: " err))
  | None => ret (documents, None)
  end
  end
  end
  end.

(** Running an operation from a world with nothing recorded yet. *)
Definition run {A : Type} (c : Go W A) (w : W) : result A * state W :=
  c {| world := w; trace := [] |}.

End Adapter.

(** ** An in-memory stand-in for the SDK and the two handles

    Used to run the adapter on concrete inputs. Columns are plain data.
    A string column answers [GetAsString] within its bounds, panics with
    an index out of range when asked for the index just past its last
    value, and answers the empty string and an error further out; a
    vector column answers the empty string and an error. The backend and
    the encoder answer from a fixed script. *)
Module fake.

Inductive Column : Type :=
| ColumnVarChar (name : string) (values : list string)
| ColumnFloatVector (name : string) (dim : Z) (values : list (list Z)).

Definition Name (c : Column) : string :=
  match c with
  | ColumnVarChar name _ | ColumnFloatVector name _ _ => name
  end.

Definition Len (c : Column) : Z :=
  match c with
  | ColumnVarChar _ values => Z.of_nat (length values)
  | ColumnFloatVector _ _ values => Z.of_nat (length values)
  end.

Definition GetAsString (c : Column) (idx : Z)
  : result (string * option error) :=
  match c with
  | ColumnVarChar _ values =>
      if (idx <? 0) || (Z.of_nat (length values) <? idx)
      then Ret ("", Some (errorString "index out of range"))
      else match values !! Z.to_nat idx with
           | Some v => Ret (v, None)
           | None => Panic (IndexOutOfRange idx (length values))
           end
  | ColumnFloatVector _ _ _ =>
      Ret ("", Some (errorString "conversion to string not supported"))
  end.

Definition NewIndexIvfFlat (metricType : entity.MetricType) (nlist : Z)
  : option (entity.MetricType * Z) * option error :=
  if (1 <=? nlist) && (nlist <=? 65536)
  then (Some (metricType, nlist), None)
  else (None, Some (errorString "nlist not valid"))%stdpp.

Definition NewIndexIvfFlatSearchParam (nprobe : Z)
  : option Z * option error :=
  if (1 <=? nprobe) && (nprobe <=? 65536)
  then (Some nprobe, None)
  else (None, Some (errorString "nprobe not valid")).

Definition api : entity.API :=
  {| entity.float32 := Z;
     entity.Column := Column;
     entity.Index := entity.MetricType * Z;
     entity.SearchParam := Z;
     entity.DefaultShardNumber := 0;
     entity.TypeParamMaxLength := "max_length";
     entity.TypeParamDim := "dim";
     entity.NewColumnVarChar := ColumnVarChar;
     entity.NewColumnFloatVector := ColumnFloatVector;
     entity.ColumnName := Name;
     entity.ColumnLen := Len;
     entity.ColumnGetAsString := GetAsString;
     entity.NewIndexIvfFlat := NewIndexIvfFlat;
     entity.NewIndexIvfFlatSearchParam := NewIndexIvfFlatSearchParam |}.
#[local] Existing Instance api.

(** A result set over a list of columns: the first column of that name. *)
Definition resultSet (columns : list Column) : client.ResultSet :=
  {| client.GetColumn fieldName :=
       find (fun c => String.eqb (Name c) fieldName) columns |}.

Definition searchResult (columns : list Column) : client.SearchResult :=
  {| client.Fields := resultSet columns |}.

(** The script: what each call answers. *)
Record script : Type := {
  encode : string -> list Z * option error;
  create : option error;
  createIndex : option error;
  upsert : option error;
  load : option error;
  search : list client.SearchResult * option error;
  release : option error
}.

Definition Client : client.Client script :=
  {| client.CreateCollection _ _ w := (create w, w);
     client.CreateIndex _ _ _ _ w := (createIndex w, w);
     client.DropCollection _ w := (None, w);
     client.ListCollections w := (([], None), w);
     client.Upsert _ _ _ w := ((None, upsert w), w);
     client.LoadCollection _ _ w := (load w, w);
     client.Search _ w := (search w, w);
     client.ReleaseCollection _ w := (release w, w) |}.

Definition Encoder : secondary.TextEncoder script :=
  {| secondary.Encode text w := (encode w text, w) |}.

Definition repo : DatastoreMilvusRepository script :=
  NewDatastoreMilvusRepository Client Encoder.

(** A backend holding one matching document, and an encoder that maps a
    text to a vector of its length. *)
Definition healthy : script :=
  {| encode text := ([Z.of_nat (String.length text)], None);
     create := None;
     createIndex := None;
     upsert := None;
     load := None;
     search :=
       ([searchResult [ColumnVarChar "title" ["Go"];
                       ColumnVarChar "content" ["A language"];
                       ColumnVarChar "category" ["tech"]]], None);
     release := None |}.

Definition with_search (r : list client.SearchResult * option error)
    (w : script) : script :=
  {| encode := encode w; create := create w; createIndex := createIndex w;
     upsert := upsert w; load := load w; search := r;
     release := release w |}.

Definition with_release (r : option error) (w : script) : script :=
  {| encode := encode w; create := create w; createIndex := createIndex w;
     upsert := upsert w; load := load w; search := search w;
     release := r |}.

Definition with_create (r : option error) (w : script) : script :=
  {| encode := encode w; create := r; createIndex := createIndex w;
     upsert := upsert w; load := load w; search := search w;
     release := release w |}.

Definition with_createIndex (r : option error) (w : script) : script :=
  {| encode := encode w; create := create w; createIndex := r;
     upsert := upsert w; load := load w; search := search w;
     release := release w |}.

Definition with_encode (f : string -> list Z * option error) (w : script)
  : script :=
  {| encode := f; create := create w; createIndex := createIndex w;
     upsert := upsert w; load := load w; search := search w;
     release := release w |}.

(** Scripts with one thing going wrong. *)
Definition search_down : script :=
  with_search ([], Some (errorString "deadline exceeded")) healthy.

Definition no_result_sets : script := with_search ([], None) healthy.

Definition release_down : script :=
  with_release (Some (errorString "release refused")) healthy.

Definition create_refused : script :=
  with_create (Some (errorString "collection exists")) healthy.

Definition index_refused : script :=
  with_createIndex (Some (errorString "index refused")) healthy.

Definition encoder_down : script :=
  with_encode (fun _ => ([], Some (errorString "encoder unavailable")))
              healthy.

(** An encoder that refuses the empty text. *)
Definition encoder_picky : script :=
  with_encode (fun text =>
                 if String.eqb text ""
                 then ([], Some (errorString "nothing to encode"))
                 else ([Z.of_nat (String.length text)], None))
              healthy.


(** A result set whose content column is shorter than its title column. *)
Definition empty_content : script :=
  with_search
    ([searchResult [ColumnVarChar "title" ["Go"];
                    ColumnVarChar "content" [];
                    ColumnVarChar "category" ["tech"]]], None)
    healthy.

Definition with_load (r : option error) (w : script) : script :=
  {| encode := encode w; create := create w; createIndex := createIndex w;
     upsert := upsert w; load := r; search := search w;
     release := release w |}.

Definition with_upsert (r : option error) (w : script) : script :=
  {| encode := encode w; create := create w; createIndex := createIndex w;
     upsert := r; load := load w; search := search w;
     release := release w |}.

Definition load_down : script :=
  with_load (Some (errorString "collection not found")) healthy.

Definition upsert_down : script :=
  with_upsert (Some (errorString "content too long")) healthy.

(** A result set with a title but no content column. *)
Definition missing_content : script :=
  with_search
    ([searchResult [ColumnVarChar "title" ["Go"];
                    ColumnVarChar "category" ["tech"]]], None)
    healthy.

(** A result set with no hit: an empty title column and nothing else. *)
Definition no_hits : script :=
  with_search ([searchResult [ColumnVarChar "title" []]], None) healthy.

(** A backend that only answers listings and drops, from a script. *)
Record catalog : Type := {
  listing : list entity.Collection * option error;
  drop : option error
}.

Definition CatalogClient : client.Client catalog :=
  {| client.CreateCollection _ _ w := (None, w);
     client.CreateIndex _ _ _ _ w := (None, w);
     client.DropCollection _ w := (drop w, w);
     client.ListCollections w := (listing w, w);
     client.Upsert _ _ _ w := ((None, None), w);
     client.LoadCollection _ _ w := (None, w);
     client.Search _ w := (([], None), w);
     client.ReleaseCollection _ w := (None, w) |}.

Definition CatalogEncoder : secondary.TextEncoder catalog :=
  {| secondary.Encode text w := (([], None), w) |}.

Definition catalog_repo : DatastoreMilvusRepository catalog :=
  NewDatastoreMilvusRepository CatalogClient CatalogEncoder.

Definition two_collections : catalog :=
  {| listing := ([ {| entity.collection_Name := "docs" |};
                   {| entity.collection_Name := "notes" |} ], None);
     drop := None |}.

Definition catalog_down : catalog :=
  {| listing := ([], Some (errorString "connection lost"));
     drop := Some (errorString "collection not found") |}.

(** The option record the SDK starts from before it runs the option
    functions of a request. *)
Definition defaultOption : client.SearchQueryOption :=
  {| client.ConsistencyLevel := entity.ClBounded;
     client.Limit := 0;
     client.Offset := 0;
     client.IgnoreGrowing := false |}.

Definition doc (id title content category : string) : domain.Document :=
  {| domain.ID := id; domain.Title := title;
     domain.Content := content; domain.Category := category |}.

End fake.


(** ** Vocabulary of the statements *)
Section Shapes.
Context `{entity.API}.
Context {W : Type}.

(** A computation that touches neither the world nor the trace and comes
    out as [r]. *)
Definition pure {A : Type} (c : Go W A) (r : result A) : Prop :=
  forall s, c s = (r, s).

(** The encoder calls of a batch whose documents all encoded, with the
    vector each call returned. *)
Definition encodings (documents : list domain.Document)
    (vectors : list (list entity.float32)) : list Event :=
  zip_with (fun d v => {| request := CallEncode (domain.Content d);
                          reply := ReplyVector v None |})
           documents vectors.

(** The five columns [UpsertDocuments] builds from a batch and the
    vectors of its documents. *)
Definition columns (documents : list domain.Document)
    (vectors : list (list entity.float32)) : list entity.Column :=
  [ entity.NewColumnVarChar "id" (domain.ID <$> documents);
    entity.NewColumnVarChar "title" (domain.Title <$> documents);
    entity.NewColumnVarChar "content" (domain.Content <$> documents);
    entity.NewColumnVarChar "category" (domain.Category <$> documents);
    entity.NewColumnFloatVector "embedding" 4096 vectors ].

(** The two ways one run of [UpsertDocuments] can go. *)
Inductive UpsertDocuments_run (collectionName : string)
    (documents : list domain.Document)
  : result (option error) -> list Event -> Prop :=
| Upsert_encode_failed pre d post vectors v e :
    documents = pre ++ d :: post ->
    length vectors = length pre ->
    UpsertDocuments_run collectionName documents
      (Ret (Some (Errorf_w "fail to encode content: " e)))
      (encodings pre vectors
         ++ [ {| request := CallEncode (domain.Content d);
                 reply := ReplyVector v (Some e) |} ])
| Upsert_submitted vectors c err :
    length vectors = length documents ->
    UpsertDocuments_run collectionName documents
      (Ret (Errorf_w "fail to upsert data, err: " <$> err))
      (encodings documents vectors
         ++ [ {| request :=
                   CallUpsert collectionName "" (columns documents vectors);
                 reply := ReplyColumn c err |} ]).

(** Field [i] of a schema, with its one type parameter. *)
Definition has_field (schema : entity.Schema) (i : nat) (name : string)
    (type : entity.FieldType) (param value : string) (primary : bool)
  : Prop :=
  exists f,
    entity.Fields schema !! i = Some f /\
    entity.Name f = name /\
    entity.DataType f = type /\
    entity.TypeParams f = {[ param := value ]} /\
    entity.PrimaryKey f = primary /\
    entity.AutoID f = false.

(** [c.GetAsString(i)] returned, with the string [v] and the error [e]. *)
Definition reads (c : entity.Column) (i : Z) (v : string) (e : option error)
  : Prop :=
  entity.ColumnGetAsString c i = Ret (v, e).

(** The document made of three strings read off the columns. *)
Definition row (title content category : string) : domain.Document :=
  {| domain.ID := "";
     domain.Title := title;
     domain.Content := content;
     domain.Category := category |}.

(** Position [i] of three columns can be read, and gives the document
    [d]. *)
Definition row_at (titles contents categories : entity.Column) (i : Z)
    (d : domain.Document) : Prop :=
  exists title e1 content e2 category e3,
    reads titles i title e1 /\
    reads contents i content e2 /\
    reads categories i category e3 /\
    d = row title content category.

(** What one round of the loop of [Search] reads at position [i]: the
    three method calls in their order, each on a column that may be nil
    and may panic. *)
Definition decode_row (titles contents categories : option entity.Column)
    (i : Z) : result domain.Document :=
  match titles with
  | None => Panic NilDereference
  | Some tc =>
      match entity.ColumnGetAsString tc i with
      | Panic p => Panic p
      | Ret (title, _) =>
          match contents with
          | None => Panic NilDereference
          | Some cc =>
              match entity.ColumnGetAsString cc i with
              | Panic p => Panic p
              | Ret (content, _) =>
                  match categories with
                  | None => Panic NilDereference
                  | Some gc =>
                      match entity.ColumnGetAsString gc i with
                      | Panic p => Panic p
                      | Ret (category, _) =>
                          Ret (row title content category)
                      end
                  end
              end
          end
      end
  end.

(** The request [Search] sends for a collection and an encoded query. *)
Definition sent (collectionName : string) (v : list entity.float32)
  : client.SearchRequest :=
  Search_request collectionName v
    (fst (entity.NewIndexIvfFlatSearchParam 10)).

(** The ways one run of [Search] can go: its outcome and its trace. *)
Inductive Search_run (collectionName query : string)
  : result (list domain.Document * option error) -> list Event -> Prop :=
| Search_encode_failed v e :
    Search_run collectionName query
      (Ret ([], Some (Errorf_w "fail to encode query: " e)))
      [ {| request := CallEncode query; reply := ReplyVector v (Some e) |} ]
| Search_load_failed v e :
    Search_run collectionName query
      (Ret ([], Some (Errorf_w "failed to load collection: " e)))
      [ {| request := CallEncode query; reply := ReplyVector v None |};
        {| request := CallLoadCollection collectionName false;
           reply := ReplyError (Some e) |} ]
| Search_search_failed v rs e :
    Search_run collectionName query
      (Ret ([], Some (Errorf_w "fail to search collection: " e)))
      [ {| request := CallEncode query; reply := ReplyVector v None |};
        {| request := CallLoadCollection collectionName false;
           reply := ReplyError None |};
        {| request := CallSearch (sent collectionName v);
           reply := ReplyResults rs (Some e) |} ]
| Search_no_result_set v :
    Search_run collectionName query
      (Panic (IndexOutOfRange 0 0))
      [ {| request := CallEncode query; reply := ReplyVector v None |};
        {| request := CallLoadCollection collectionName false;
           reply := ReplyError None |};
        {| request := CallSearch (sent collectionName v);
           reply := ReplyResults [] None |} ]
| Search_decode_panicked v first rs p :
    pure (Search_decode (client.Fields first)) (Panic p) ->
    Search_run collectionName query
      (Panic p)
      [ {| request := CallEncode query; reply := ReplyVector v None |};
        {| request := CallLoadCollection collectionName false;
           reply := ReplyError None |};
        {| request := CallSearch (sent collectionName v);
           reply := ReplyResults (first :: rs) None |} ]
| Search_released v first rs documents err :
    pure (Search_decode (client.Fields first)) (Ret documents) ->
    Search_run collectionName query
      (Ret match err with
           | Some e => ([], Some (Errorf_w "failed to release collection: " e))
           | None => (documents, None)
           end)
      [ {| request := CallEncode query; reply := ReplyVector v None |};
        {| request := CallLoadCollection collectionName false;
           reply := ReplyError None |};
        {| request := CallSearch (sent collectionName v);
           reply := ReplyResults (first :: rs) None |};
        {| request := CallReleaseCollection collectionName;
           reply := ReplyError err |} ].


(** A result set on which decoding calls a method of a nil column: the
    title column is absent; or it has a row whose first value can be
    read, and the content column is absent; or the first value of the
    content column can be read too, and the category column is absent. *)
Definition missing_column (fields : client.ResultSet) : Prop :=
  client.GetColumn fields "title" = None \/
  exists titles title e1,
    client.GetColumn fields "title" = Some titles /\
    0 < entity.ColumnLen titles /\
    reads titles 0 title e1 /\
    (client.GetColumn fields "content" = None \/
     exists contents content e2,
       client.GetColumn fields "content" = Some contents /\
       reads contents 0 content e2 /\
       client.GetColumn fields "category" = None).

(** A result set on whose first row a column method panics with [p]:
    the title column has a row, and reading its first value panics; or
    that value can be read, and reading the first value of the content
    column panics; or that one can be read too, and reading the first
    value of the category column panics. *)
Definition first_row_panics (fields : client.ResultSet) (p : panic) : Prop :=
  exists titles,
    client.GetColumn fields "title" = Some titles /\
    0 < entity.ColumnLen titles /\
    (entity.ColumnGetAsString titles 0 = Panic p \/
     exists title e1 contents,
       reads titles 0 title e1 /\
       client.GetColumn fields "content" = Some contents /\
       (entity.ColumnGetAsString contents 0 = Panic p \/
        exists content e2 categories,
          reads contents 0 content e2 /\
          client.GetColumn fields "category" = Some categories /\
          entity.ColumnGetAsString categories 0 = Panic p)).

(** The calls of a complete [Search], [UpsertDocuments] and
    [CreateCollection]. *)
Definition Search_calls (collectionName query : string)
    (v : list entity.float32) : list Call :=
  [ CallEncode query;
    CallLoadCollection collectionName false;
    CallSearch (sent collectionName v);
    CallReleaseCollection collectionName ].

Definition UpsertDocuments_calls (collectionName : string)
    (documents : list domain.Document)
    (vectors : list (list entity.float32)) : list Call :=
  ((fun d => CallEncode (domain.Content d)) <$> documents)
    ++ [ CallUpsert collectionName "" (columns documents vectors) ].

Definition CreateCollection_calls (collectionName : string) : list Call :=
  [ CallCreateCollection (defineSchema collectionName)
      entity.DefaultShardNumber;
    CallCreateIndex collectionName "embedding"
      (fst (entity.NewIndexIvfFlat entity.COSINE 1024)) false ].

(** The configuration the search request is said to carry. *)
Definition excludes_growing (o : client.SearchQueryOption) : Prop :=
  client.IgnoreGrowing o = true.

Definition configured_as_claimed (o : client.SearchQueryOption) : Prop :=
  client.Limit o = 3 /\ client.Offset o = 0 /\
  client.ConsistencyLevel o = entity.ClStrong /\ excludes_growing o.

(** The configuration it carries. *)
Definition configured (o : client.SearchQueryOption) : Prop :=
  client.Limit o = 3 /\ client.Offset o = 0 /\
  client.ConsistencyLevel o = entity.ClStrong /\
  client.IgnoreGrowing o = false.

End Shapes.

(** ** Properties *)
Section Properties.
Context `{entity.API}.
Context {W : Type}.
Implicit Types (m : DatastoreMilvusRepository W) (s : state W).

Ltac go_unfold :=
  unfold run, Encoder_Encode, Client_CreateCollection, Client_CreateIndex,
    Client_DropCollection, Client_ListCollections, Client_Upsert,
    Client_LoadCollection, Client_Search, Client_ReleaseCollection,
    bind, call, ret, throw in *;
  cbn [world trace] in *.

(** Case analysis on the shape of a run, from the lemma [H] that gives
    the shape of the outcome and the trace. *)
Ltac run_cases H :=
  let Hrun := fresh "Hrun" in
  pose proof H as Hrun;
  match type of Hrun with
  | _ ?r ?t =>
      revert Hrun; generalize r; generalize t;
      intros ? ? Hrun; destruct Hrun
  end.

(** Membership in a trace that is written out. *)
Ltac elems :=
  repeat match goal with
    | H : _ ∈ [] |- _ => by apply elem_of_nil in H
    | H : _ ∈ _ :: _ |- _ => apply elem_of_cons in H as [->|H]
    end.

(** The same for a member that is itself written out. *)
Ltac elems_eq :=
  repeat match goal with
    | H : _ ∈ [] |- _ => by apply elem_of_nil in H
    | H : _ ∈ _ :: _ |- _ =>
        apply elem_of_cons in H as [?|H]; simplify_eq
    end.

(** *** Indexing at zero *)

Lemma index_nil_0 {A : Type} :
  index (W:=W) (@nil A) 0 = throw (IndexOutOfRange 0 0).
Proof. reflexivity. Qed.

Lemma index_cons_0 {A : Type} (x : A) l : index (W:=W) (x :: l) 0 = ret x.
Proof. reflexivity. Qed.

(** *** The decoding loop *)

Lemma Search_loop_S n i titles contents categories documents s :
  Search_loop (W:=W) (S n) i titles contents categories documents s
  = match decode_row titles contents categories i with
    | Ret d =>
        Search_loop n (i + 1) titles contents categories (documents ++ [d]) s
    | Panic p => (Panic p, s)
    end.
Proof.
  cbn [Search_loop]. unfold decode_row, GetAsString. go_unfold.
  destruct titles as [tc|]; [|reflexivity].
  destruct (entity.ColumnGetAsString tc i) as [[title e1]|p]; [|reflexivity].
  destruct contents as [cc|]; [|reflexivity].
  destruct (entity.ColumnGetAsString cc i) as [[content e2]|p];
    [|reflexivity].
  destruct categories as [gc|]; [|reflexivity].
  destruct (entity.ColumnGetAsString gc i) as [[category e3]|p];
    reflexivity.
Qed.

Lemma decode_row_Ret titles contents categories i d :
  decode_row titles contents categories i = Ret d ->
  exists tc cc gc,
    titles = Some tc /\ contents = Some cc /\ categories = Some gc /\
    row_at tc cc gc i d.
Proof.
  unfold decode_row, row_at, reads.
  destruct titles as [tc|]; [|discriminate].
  destruct (entity.ColumnGetAsString tc i) as [[title e1]|p] eqn:E1;
    [|discriminate].
  destruct contents as [cc|]; [|discriminate].
  destruct (entity.ColumnGetAsString cc i) as [[content e2]|p] eqn:E2;
    [|discriminate].
  destruct categories as [gc|]; [|discriminate].
  destruct (entity.ColumnGetAsString gc i) as [[category e3]|p] eqn:E3;
    [|discriminate].
  intros [= <-]. exists tc, cc, gc. do 3 (split; [reflexivity|]).
  by exists title, e1, content, e2, category, e3.
Qed.

Lemma Search_loop_pure n i titles contents categories documents :
  exists r,
    pure (W:=W) (Search_loop n i titles contents categories documents) r.
Proof.
  revert i documents. induction n as [|n IH]; intros i documents.
  - by exists (Ret documents).
  - destruct (decode_row titles contents categories i) as [d|p] eqn:Ed.
    + destruct (IH (i + 1) (documents ++ [d])) as [r Hr].
      exists r. intros s. by rewrite Search_loop_S, Ed.
    + exists (Panic p). intros s. by rewrite Search_loop_S, Ed.
Qed.

Lemma Search_loop_Ret n i titles contents categories documents out (w : W) :
  pure (W:=W) (Search_loop n i titles contents categories documents)
       (Ret out) ->
  exists rows,
    out = documents ++ rows /\
    length rows = n /\
    forall (k : nat) d, rows !! k = Some d ->
      exists tc cc gc,
        titles = Some tc /\ contents = Some cc /\ categories = Some gc /\
        row_at tc cc gc (i + Z.of_nat k) d.
Proof.
  revert i documents. induction n as [|n IH]; intros i documents Hp.
  - specialize (Hp {| world := w; trace := [] |}). cbn in Hp.
    unfold ret in Hp. injection Hp as <-.
    exists []. rewrite app_nil_r. do 2 (split; [reflexivity|]).
    intros k d Hk. by rewrite lookup_nil in Hk.
  - destruct (decode_row titles contents categories i) as [d|p] eqn:Ed.
    + assert (Hrest :
        pure (W:=W)
          (Search_loop n (i + 1) titles contents categories
             (documents ++ [d])) (Ret out)).
      { intros s. specialize (Hp s). by rewrite Search_loop_S, Ed in Hp. }
      destruct (IH _ _ Hrest) as (rows & -> & Hlen & Hrows).
      exists (d :: rows). rewrite <- app_assoc. split; [reflexivity|].
      split; [cbn; lia|].
      intros [|k] d' Hk; cbn in Hk.
      * injection Hk as <-. rewrite Z.add_0_r. by apply decode_row_Ret.
      * destruct (Hrows k d' Hk) as (tc & cc & gc & ? & ? & ? & Hrow).
        exists tc, cc, gc. do 3 (split; [done|]).
        by replace (i + Z.of_nat (S k)) with (i + 1 + Z.of_nat k) by lia.
    + specialize (Hp {| world := w; trace := [] |}).
      rewrite Search_loop_S, Ed in Hp. discriminate Hp.
Qed.

(** *** Decoding a result set *)

Lemma Search_decode_pure fields :
  exists r, pure (W:=W) (Search_decode fields) r.
Proof.
  unfold Search_decode, Len.
  destruct (client.GetColumn fields "title") as [tc|].
  - destruct (Search_loop_pure (Z.to_nat (entity.ColumnLen tc)) 0
                (Some tc) (client.GetColumn fields "content")
                (client.GetColumn fields "category") []) as [r Hr].
    exists r. intros s. go_unfold. apply Hr.
  - exists (Panic NilDereference). intros s. reflexivity.
Qed.

Lemma Search_decode_Ret fields documents (w : W) :
  pure (W:=W) (Search_decode fields) (Ret documents) ->
  exists tc,
    client.GetColumn fields "title" = Some tc /\
    length documents = Z.to_nat (entity.ColumnLen tc) /\
    forall (i : nat) d, documents !! i = Some d ->
      exists cc gc,
        client.GetColumn fields "content" = Some cc /\
        client.GetColumn fields "category" = Some gc /\
        row_at tc cc gc (Z.of_nat i) d.
Proof.
  unfold Search_decode, Len. intros Hp.
  destruct (client.GetColumn fields "title") as [tc|].
  - assert (Hloop :
      pure (W:=W)
        (Search_loop (Z.to_nat (entity.ColumnLen tc)) 0 (Some tc)
           (client.GetColumn fields "content")
           (client.GetColumn fields "category") []) (Ret documents)).
    { intros s. specialize (Hp s). by go_unfold. }
    destruct (Search_loop_Ret _ _ _ _ _ _ _ w Hloop)
      as (rows & -> & Hlen & Hrows).
    exists tc. split; [reflexivity|]. split; [done|].
    intros i d Hd. cbn in Hd.
    destruct (Hrows i d Hd) as (tc' & cc & gc & [= <-] & Hc & Hg & Hrow).
    exists cc, gc. by rewrite Z.add_0_l in Hrow.
  - specialize (Hp {| world := w; trace := [] |}). discriminate Hp.
Qed.

Lemma Search_decode_missing_column fields :
  missing_column fields ->
  pure (W:=W) (Search_decode fields) (Panic NilDereference).
Proof.
  unfold missing_column, reads, Search_decode, Len.
  intros [Ht|(tc & title & e1 & Ht & Hlen & Hread & Hnil)] s; rewrite Ht;
    [reflexivity|].
  go_unfold.
  destruct (Z.to_nat (entity.ColumnLen tc)) as [|n] eqn:En; [lia|].
  rewrite Search_loop_S. unfold decode_row. rewrite Hread.
  destruct Hnil as [->|(cc & content & e2 & -> & Hread2 & ->)];
    [reflexivity|].
  by rewrite Hread2.
Qed.

(** *** Every run of [Search] has one of the six shapes *)

Lemma Search_runs m collectionName query w :
  Search_run (W:=W) collectionName query
    (fst (run (Search m collectionName query) w))
    (trace (snd (run (Search m collectionName query) w))).
Proof.
  unfold Search. go_unfold.
  destruct (secondary.Encode (Encoder m) query w) as [[v [e|]] w1];
    cbn; [constructor|].
  destruct (client.LoadCollection (Client m) collectionName false w1)
    as [[e|] w2]; cbn; [constructor|].
  destruct (entity.NewIndexIvfFlatSearchParam 10) as [sp e0] eqn:Esp.
  apply (f_equal fst) in Esp. cbn in Esp. subst sp. cbn.
  change (Search_request collectionName v _) with (sent collectionName v).
  destruct (client.Search (Client m) (sent collectionName v) w2)
    as [[rs [e|]] w3]; cbn -[Search_decode]; [constructor|].
  destruct rs as [|first rs];
    [rewrite index_nil_0|rewrite index_cons_0];
    go_unfold; cbn -[Search_decode]; [constructor|].
  destruct (Search_decode_pure (client.Fields first)) as [r Hr].
  rewrite Hr. destruct r as [documents|p]; cbn; [|by constructor].
  destruct (client.ReleaseCollection (Client m) collectionName w3)
    as [[e|] w4]; cbn.
  - by apply (Search_released _ _ v first rs documents (Some e)).
  - by apply (Search_released _ _ v first rs documents None).
Qed.

(** *** The search request *)

Lemma opt_configured base : configured (opt base).
Proof. repeat split. Qed.

(** C1 (as amended). Every similarity search request that an invocation
    of [Search] submits resolves, over whatever option record the SDK
    starts from, to limit 3, offset 0, strong consistency, and
    [IgnoreGrowing] false: growing segments are not excluded. *)
Theorem Search_request_configuration m collectionName query w req base :
  req ∈ search_requests
          (trace (snd (run (Search m collectionName query) w))) ->
  configured (client.resolve base req).
Proof.
  run_cases (Search_runs m collectionName query w); cbn; intros Hreq; elems;
    apply opt_configured.
Qed.

(** *** Release happens on the success path only *)

(** C2. When the backend search call of an invocation of [Search] fails,
    no release call is issued and the search error is returned; and a
    release call in the trace always comes after a search call that
    succeeded. *)
Theorem Search_release_only_after_successful_search
    m collectionName query w :
  let r := fst (run (Search m collectionName query) w) in
  let t := trace (snd (run (Search m collectionName query) w)) in
  (forall ev e,
      ev ∈ t -> is_search (request ev) = true ->
      failure (reply ev) = Some e ->
      count is_release t = 0%nat /\
      r = Ret ([], Some (Errorf_w "fail to search collection: " e))) /\
  (forall (i : nat) ev,
      t !! i = Some ev -> is_release (request ev) = true ->
      exists (j : nat) sv,
        (j < i)%nat /\ t !! j = Some sv /\
        is_search (request sv) = true /\ failure (reply sv) = None).
Proof.
  cbv zeta. run_cases (Search_runs m collectionName query w); split.
  all: try (intros ev e0 Hev Hs Hf; elems; cbn in Hs, Hf;
            try discriminate; simplify_eq; by split).
  all: intros i ev Hi Hr;
    repeat (destruct i as [|i]; cbn in Hi; simplify_eq;
            try discriminate Hr).
  exists 2%nat. eexists. split; [lia|]. by repeat split.
Qed.

(** *** A failed release takes the results with it *)

(** C7. When the backend search of an invocation of [Search] succeeded
    and the release that follows fails, [Search] returns the release
    error and no documents, although the documents had been decoded. *)
Theorem Search_release_failure_discards_results
    m collectionName query w sv rv e :
  let r := fst (run (Search m collectionName query) w) in
  let t := trace (snd (run (Search m collectionName query) w)) in
  sv ∈ t -> is_search (request sv) = true -> failure (reply sv) = None ->
  rv ∈ t -> is_release (request rv) = true -> failure (reply rv) = Some e ->
  r = Ret ([], Some (Errorf_w "failed to release collection: " e)) /\
  exists first rs documents,
    reply sv = ReplyResults (first :: rs) None /\
    pure (W:=W) (Search_decode (client.Fields first)) (Ret documents).
Proof.
  cbv zeta. run_cases (Search_runs m collectionName query w);
    intros Hsv Hs Hsf Hrv Hr Hrf; elems; try discriminate.
  cbn in Hrf. subst err. split; [reflexivity|].
  by exists first, rs, documents.
Qed.

(** *** What the returned documents hold *)

(** A successful [Search] made its four calls and returns the rows of
    the first result set. *)
Lemma Search_success_rows m collectionName query w documents :
  fst (run (Search m collectionName query) w) = Ret (documents, None) ->
  exists v first rs titles,
    trace (snd (run (Search m collectionName query) w))
    = [ {| request := CallEncode query; reply := ReplyVector v None |};
        {| request := CallLoadCollection collectionName false;
           reply := ReplyError None |};
        {| request := CallSearch (sent collectionName v);
           reply := ReplyResults (first :: rs) None |};
        {| request := CallReleaseCollection collectionName;
           reply := ReplyError None |} ] /\
    client.GetColumn (client.Fields first) "title" = Some titles /\
    length documents = Z.to_nat (entity.ColumnLen titles) /\
    forall (i : nat) d, documents !! i = Some d ->
      exists contents categories,
        client.GetColumn (client.Fields first) "content" = Some contents /\
        client.GetColumn (client.Fields first) "category" = Some categories /\
        row_at titles contents categories (Z.of_nat i) d.
Proof.
  run_cases (Search_runs m collectionName query w); intros Hr; try discriminate.
  destruct err as [e|]; [discriminate|]. simplify_eq.
  match goal with
  | Hdec : pure _ _ |- _ =>
      destruct (Search_decode_Ret _ _ w Hdec) as (tc & Ht & Hlen & Hrows)
  end.
  by exists v, first, rs, tc.
Qed.

(** C8. When [Search] succeeds, every returned document has the empty
    string as its id; the search request asked for the fields title,
    content and category and not for id; and document [i] is read off
    position [i] of those three columns of the first result set. *)
Theorem Search_results_have_no_id m collectionName query w documents :
  let r := fst (run (Search m collectionName query) w) in
  let t := trace (snd (run (Search m collectionName query) w)) in
  r = Ret (documents, None) ->
  (forall d, d ∈ documents -> domain.ID d = "") /\
  (forall req, req ∈ search_requests t ->
     client.outputFields req = ["title"; "content"; "category"] /\
     "id" ∉ client.outputFields req) /\
  exists req first rs titles,
    t !! 2%nat = Some {| request := CallSearch req;
                         reply := ReplyResults (first :: rs) None |} /\
    client.GetColumn (client.Fields first) "title" = Some titles /\
    length documents = Z.to_nat (entity.ColumnLen titles) /\
    forall (i : nat) d, documents !! i = Some d ->
      exists contents categories,
        client.GetColumn (client.Fields first) "content" = Some contents /\
        client.GetColumn (client.Fields first) "category" = Some categories /\
        row_at titles contents categories (Z.of_nat i) d.
Proof.
  cbv zeta. intros Hr.
  destruct (Search_success_rows _ _ _ _ _ Hr)
    as (v & first & rs & tc & -> & Ht & Hlen & Hrows).
  split; [|split].
  - intros d Hd. apply list_elem_of_lookup in Hd as [i Hi].
    destruct (Hrows i d Hi)
      as (cc & gc & _ & _ & title & e1 & content & e2 & category & e3
          & _ & _ & _ & ->).
    reflexivity.
  - cbn. intros req Hreq. elems. split; [reflexivity|].
    cbn. rewrite !not_elem_of_cons. repeat split; try discriminate.
    apply not_elem_of_nil.
  - exists (sent collectionName v), first, rs, tc. by repeat split.
Qed.

(** *** The first result set is read without a check *)

(** C9. [Search] reads element 0 of the result sets of a successful
    backend search without looking at their number: when there are none,
    the invocation panics with an index out of range instead of
    returning documents or an error. *)
Theorem Search_first_result_set_unchecked m collectionName query w ev :
  let r := fst (run (Search m collectionName query) w) in
  let t := trace (snd (run (Search m collectionName query) w)) in
  ev ∈ t -> is_search (request ev) = true ->
  reply ev = ReplyResults [] None ->
  r = Panic (IndexOutOfRange 0 0).
Proof.
  cbv zeta. run_cases (Search_runs m collectionName query w);
    intros Hev Hs Hre; elems; cbn in Hs, Hre; try discriminate.
  reflexivity.
Qed.

(** *** Decoding errors are dropped *)


(** *** Counting calls *)

Lemma count_app p (t1 t2 : list (Event (H:=H))) :
  count p (t1 ++ t2) = (count p t1 + count p t2)%nat.
Proof. induction t1 as [|e t1 IH]; cbn; [reflexivity|]. rewrite IH. lia. Qed.

Lemma encodings_cons d documents v vectors :
  encodings (d :: documents) (v :: vectors)
  = {| request := CallEncode (domain.Content d);
       reply := ReplyVector v None |} :: encodings documents vectors.
Proof. reflexivity. Qed.

Lemma encodings_succeed documents vectors ev :
  ev ∈ encodings documents vectors ->
  is_encode (request ev) = true /\ failure (reply ev) = None.
Proof.
  unfold encodings. intros Hev.
  apply elem_of_lookup_zip_with in Hev as (i & d & v & -> & _ & _).
  by split.
Qed.

Lemma encodings_lookup documents vectors (i : nat) d :
  length vectors = length documents ->
  documents !! i = Some d ->
  exists v, vectors !! i = Some v /\
    encodings documents vectors !! i
    = Some {| request := CallEncode (domain.Content d);
              reply := ReplyVector v None |}.
Proof.
  intros Hlen Hd.
  destruct (vectors !! i) as [v|] eqn:Hv.
  - exists v. split; [reflexivity|]. unfold encodings.
    rewrite lookup_zip_with, Hd. cbn. by rewrite Hv.
  - apply lookup_ge_None in Hv. apply lookup_lt_Some in Hd. lia.
Qed.

Lemma length_encodings documents vectors :
  length vectors = length documents ->
  length (encodings documents vectors) = length documents.
Proof. intros Hlen. unfold encodings. rewrite length_zip_with. lia. Qed.

Lemma count_encodings p documents vectors :
  (forall text, p (CallEncode text) = false) ->
  count p (encodings documents vectors) = 0%nat.
Proof.
  intros Hp. revert vectors.
  induction documents as [|d documents IH]; intros [|v vectors];
    cbn; try reflexivity.
  rewrite Hp. apply IH.
Qed.

(** *** The encoding loop of [UpsertDocuments] *)

Lemma UpsertDocuments_loop_spec m documents l s :
  (exists vectors w',
      length vectors = length documents /\
      UpsertDocuments_loop m documents l s
      = (Ret (inr {| idList := idList l ++ (domain.ID <$> documents);
                     titleList := titleList l ++ (domain.Title <$> documents);
                     contentList :=
                       contentList l ++ (domain.Content <$> documents);
                     categoryList :=
                       categoryList l ++ (domain.Category <$> documents);
                     embeddingList := embeddingList l ++ vectors |}),
         {| world := w';
            trace := trace s ++ encodings documents vectors |})) \/
  (exists pre d post vectors v e w',
      documents = pre ++ d :: post /\
      length vectors = length pre /\
      UpsertDocuments_loop m documents l s
      = (Ret (inl (Errorf_w "fail to encode content: " e)),
         {| world := w';
            trace := trace s ++ encodings pre vectors
                       ++ [ {| request := CallEncode (domain.Content d);
                               reply := ReplyVector v (Some e) |} ] |})).
Proof.
  revert l s.
  induction documents as [|d documents IH]; intros l s.
  - left. exists [], (world s). split; [reflexivity|].
    cbn. unfold ret. rewrite !app_nil_r. by destruct l, s.
  - cbn [UpsertDocuments_loop]. go_unfold.
    destruct (secondary.Encode (Encoder m) (domain.Content d) (world s))
      as [[v [e|]] w1].
    + right. exists [], d, documents, [], v, e, w1. by repeat split.
    + match goal with
      | |- context [UpsertDocuments_loop m documents ?l1 ?s1] =>
          destruct (IH l1 s1)
            as [(vectors & w' & Hlen & ->)
               |(pre & d' & post & vectors & v' & e & w' & -> & Hlen & ->)]
      end.
      * left. exists (v :: vectors), w'. split; [cbn; lia|].
        cbn. by rewrite <- !app_assoc.
      * right. exists (d :: pre), d', post, (v :: vectors), v', e, w'.
        split; [reflexivity|]. split; [cbn; lia|].
        cbn. by rewrite <- !app_assoc.
Qed.

(** *** Every run of [UpsertDocuments] has one of the two shapes *)

Lemma UpsertDocuments_runs m collectionName documents w :
  UpsertDocuments_run collectionName documents
    (fst (run (UpsertDocuments m collectionName documents) w))
    (trace (snd (run (UpsertDocuments m collectionName documents) w))).
Proof.
  unfold UpsertDocuments, run, bind.
  match goal with
  | |- context [UpsertDocuments_loop m documents ?l ?s] =>
      destruct (UpsertDocuments_loop_spec m documents l s)
        as [(vectors & w' & Hlen & ->)
           |(pre & d & post & vectors & v & e & w' & Hd & Hlen & ->)]
  end.
  - go_unfold. cbn.
    destruct (client.Upsert (Client m) collectionName "" _ w')
      as [[c err] w2].
    cbn. destruct err as [e|]; cbn;
      [apply (Upsert_submitted _ _ vectors c (Some e) Hlen)
      |apply (Upsert_submitted _ _ vectors c None Hlen)].
  - cbn. by apply (Upsert_encode_failed _ _ pre d post vectors v e).
Qed.

Lemma encodings_not_upsert documents vectors ev :
  ev ∈ encodings documents vectors -> is_upsert (request ev) = false.
Proof.
  intros Hev. apply encodings_succeed in Hev as [Henc _].
  by destruct (request ev).
Qed.

(** *** A failed encoding aborts the batch before any write *)


(** *** The columns of a batch *)

(** C4. When the contents of all [N] documents of a batch encode,
    [UpsertDocuments] makes one encoder call per document, in order, and
    then exactly one upsert request, for the batch's collection, whose
    columns are the five sequences id, title, content, category and
    embedding; each has length [N], and position [i] of each holds the
    field of document [i], the embedding being the vector the encoder
    returned for the content of document [i]. *)
Theorem UpsertDocuments_submits_parallel_columns
    m collectionName documents w :
  let t := trace (snd (run (UpsertDocuments m collectionName documents) w)) in
  (forall ev, ev ∈ t -> is_encode (request ev) = true ->
              failure (reply ev) = None) ->
  exists ids titles contents categories embeddings c err,
    t = encodings documents embeddings
          ++ [ {| request :=
                    CallUpsert collectionName ""
                      [ entity.NewColumnVarChar "id" ids;
                        entity.NewColumnVarChar "title" titles;
                        entity.NewColumnVarChar "content" contents;
                        entity.NewColumnVarChar "category" categories;
                        entity.NewColumnFloatVector "embedding" 4096
                          embeddings ];
                  reply := ReplyColumn c err |} ] /\
    count is_upsert t = 1%nat /\
    length ids = length documents /\
    length titles = length documents /\
    length contents = length documents /\
    length categories = length documents /\
    length embeddings = length documents /\
    forall (i : nat) d, documents !! i = Some d ->
      ids !! i = Some (domain.ID d) /\
      titles !! i = Some (domain.Title d) /\
      contents !! i = Some (domain.Content d) /\
      categories !! i = Some (domain.Category d) /\
      exists v,
        embeddings !! i = Some v /\
        t !! i = Some {| request := CallEncode (domain.Content d);
                         reply := ReplyVector v None |}.
Proof.
  cbv zeta. run_cases (UpsertDocuments_runs m collectionName documents w); intros Hall.
  - exfalso.
    specialize (Hall {| request := CallEncode (domain.Content d);
                        reply := ReplyVector v (Some e) |}).
    cbn in Hall. discriminate Hall; [|reflexivity].
    apply elem_of_app. right. apply list_elem_of_here.
  - exists (domain.ID <$> documents), (domain.Title <$> documents),
      (domain.Content <$> documents), (domain.Category <$> documents),
      vectors, c, err.
    split; [reflexivity|].
    split; [by rewrite count_app, count_encodings|].
    rewrite !length_fmap. do 5 (split; [done|]).
    intros i d Hd. rewrite !list_lookup_fmap, Hd. do 4 (split; [done|]).
    destruct (encodings_lookup documents vectors i d) as (v & Hv & Hev);
      [done..|].
    exists v. split; [done|].
    rewrite lookup_app_l; [done|].
    rewrite length_encodings by done. by apply lookup_lt_Some in Hd.
Qed.

(** *** Creating a collection *)

(** C5. [CreateCollection] first submits the schema of the name with the
    default shard count, and a create-index call can only come after it.
    When the submission fails, its error is returned and no index call
    is made. When the submission succeeded and the index cannot be
    built, because the index parameters are refused or because the
    create-index call fails, an error is returned. In no case is a drop
    of the collection issued. *)
Theorem CreateCollection_schema_then_index m collectionName w :
  let r := fst (run (CreateCollection m collectionName) w) in
  let t := trace (snd (run (CreateCollection m collectionName) w)) in
  (exists err,
      t !! 0%nat
      = Some {| request :=
                  CallCreateCollection (defineSchema collectionName)
                    entity.DefaultShardNumber;
                reply := ReplyError err |}) /\
  (forall (i : nat) ev,
      t !! i = Some ev -> is_create_index (request ev) = true ->
      (0 < i)%nat) /\
  (forall ev e,
      ev ∈ t -> is_create_collection (request ev) = true ->
      failure (reply ev) = Some e ->
      r = Ret (Some (Errorf_w "failed to create collection: " e)) /\
      count is_create_index t = 0%nat) /\
  (forall ev e,
      ev ∈ t -> is_create_index (request ev) = true ->
      failure (reply ev) = Some e ->
      r = Ret (Some (Errorf_w "failed to build index: "
                       (Errorf_w "fail to create index: " e)))) /\
  (forall ev e,
      ev ∈ t -> is_create_collection (request ev) = true ->
      failure (reply ev) = None ->
      snd (entity.NewIndexIvfFlat entity.COSINE 1024) = Some e ->
      r = Ret (Some (Errorf_w "failed to build index: "
                       (Errorf_w "fail to create IVF flat index parameter: "
                          e))) /\
      count is_create_index t = 0%nat) /\
  count is_drop t = 0%nat.
Proof.
  cbv zeta. unfold CreateCollection, buildIndex. go_unfold.
  destruct (client.CreateCollection (Client m) _ _ w) as [[e0|] w1]; cbn.
  - split; [by eexists|]. split.
    { intros [|i] ev Hi Hx; [|lia]. cbn in Hi. by simplify_eq. }
    repeat split; intros; elems; cbn in *; by simplify_eq.
  - destruct (entity.NewIndexIvfFlat entity.COSINE 1024) as [idx [e1|]];
      cbn.
    + split; [by eexists|]. split.
      { intros [|i] ev Hi Hx; [|lia]. cbn in Hi. by simplify_eq. }
      repeat split; intros; elems; cbn in *; by simplify_eq.
    + destruct (client.CreateIndex (Client m) _ _ _ _ w1) as [[e2|] w2]; cbn.
      * split; [by eexists|]. split.
        { intros [|i] ev Hi Hx; [|lia]. cbn in Hi. by simplify_eq. }
        repeat split; intros; elems; cbn in *; by simplify_eq.
      * split; [by eexists|]. split.
        { intros [|i] ev Hi Hx; [|lia]. cbn in Hi. by simplify_eq. }
        repeat split; intros; elems; cbn in *; by simplify_eq.
Qed.

(** *** The schema *)

(** C6. The schema of a name carries that name and has exactly five
    fields, the same for every name: id, a varchar of maximal length 255
    and the primary key; title, a varchar of maximal length 255; content,
    a varchar of maximal length 3000; category, a varchar of maximal
    length 100; embedding, a float vector of dimension 4096. No field
    generates its values, nor does the schema, and id is the only
    primary key. *)
Theorem defineSchema_five_fields collectionName :
  let schema := defineSchema collectionName in
  entity.CollectionName schema = collectionName /\
  entity.SchemaAutoID schema = false /\
  entity.Fields schema = entity.Fields (defineSchema "") /\
  length (entity.Fields schema) = 5%nat /\
  has_field schema 0 "id" entity.FieldTypeVarChar
    entity.TypeParamMaxLength "255" true /\
  has_field schema 1 "title" entity.FieldTypeVarChar
    entity.TypeParamMaxLength "255" false /\
  has_field schema 2 "content" entity.FieldTypeVarChar
    entity.TypeParamMaxLength "3000" false /\
  has_field schema 3 "category" entity.FieldTypeVarChar
    entity.TypeParamMaxLength "100" false /\
  has_field schema 4 "embedding" entity.FieldTypeFloatVector
    entity.TypeParamDim "4096" false /\
  (forall f, f ∈ entity.Fields schema ->
             entity.PrimaryKey f = true -> entity.Name f = "id").
Proof.
  cbv zeta. do 4 (split; [reflexivity|]).
  do 5 (split; [eexists; by repeat split|]).
  intros f Hf Hpk. cbn in Hf. elems; cbn in Hpk; done.
Qed.

(** ** Further properties of the operations *)

(** *** [List] *)

Lemma List_fold_names (l : list entity.Collection) (acc : list string) :
  fold_left (fun collections collection =>
               collections ++ [entity.collection_Name collection]) l acc
  = acc ++ (entity.collection_Name <$> l).
Proof.
  revert acc. induction l as [|c l IH]; intros acc; cbn.
  - by rewrite app_nil_r.
  - rewrite IH, <- app_assoc. reflexivity.
Qed.

(** X1. [List] makes exactly one call, a listing. When the listing
    fails, it returns no names and the wrapped error; when it succeeds,
    it returns no error and one name per collection, in the order of the
    listing: name [i] is the name of collection [i]. *)
Theorem List_returns_names_in_order m w :
  let r := fst (run (List m) w) in
  let t := trace (snd (run (List m) w)) in
  exists listColl err,
    t = [ {| request := CallListCollections;
             reply := ReplyCollections listColl err |} ] /\
    (forall e, err = Some e ->
       r = Ret ([], Some (Errorf_w "failed to list collections: " e))) /\
    (err = None ->
       exists names,
         r = Ret (names, None) /\
         length names = length listColl /\
         forall (i : nat) c, listColl !! i = Some c ->
           names !! i = Some (entity.collection_Name c)).
Proof.
  cbv zeta. unfold List. go_unfold.
  destruct (client.ListCollections (Client m) w) as [[listColl err] w1].
  exists listColl, err.
  destruct err as [e|]; cbn; (split; [reflexivity|]); split; try done.
  - by intros e' [= <-].
  - intros _. eexists. split; [reflexivity|].
    rewrite List_fold_names. cbn. rewrite length_fmap. split; [done|].
    intros i c Hc. by rewrite list_lookup_fmap, Hc.
Qed.

(** *** [DeleteCollection] *)

(** X2. [DeleteCollection] makes exactly one call, a drop of the named
    collection, without looking first whether the collection exists; it
    returns nil exactly when the drop succeeded, and otherwise an error
    that wraps the backend's. *)
Theorem DeleteCollection_single_drop m collectionName w :
  let r := fst (run (DeleteCollection m collectionName) w) in
  let t := trace (snd (run (DeleteCollection m collectionName) w)) in
  exists err,
    t = [ {| request := CallDropCollection collectionName;
             reply := ReplyError err |} ] /\
    (r = Ret None <-> err = None) /\
    (forall e, err = Some e ->
       exists e', r = Ret (Some e') /\ Unwrap e' = Some e /\
                  Error e' = "failed to drop collection: " +:+ Error e).
Proof.
  cbv zeta. unfold DeleteCollection. go_unfold.
  destruct (client.DropCollection (Client m) collectionName w) as [err w1].
  exists err.
  destruct err as [e|]; cbn; (split; [reflexivity|]); repeat split;
    try done.
  intros e' [= <-]. by eexists.
Qed.

(** *** [buildIndex] *)

(** X3. [buildIndex] makes at most one call, and that call creates, not
    asynchronously, an index on the field "embedding" of the named
    collection from the IVF-flat parameters for the cosine metric and
    1024 lists. When those parameters are refused, it makes no call at
    all. It returns nil exactly when the parameters were accepted and the
    one call succeeded. *)
Theorem buildIndex_request m collectionName w :
  let r := fst (run (buildIndex m collectionName) w) in
  let t := trace (snd (run (buildIndex m collectionName) w)) in
  (forall ev, ev ∈ t ->
     request ev
     = CallCreateIndex collectionName "embedding"
         (fst (entity.NewIndexIvfFlat entity.COSINE 1024)) false) /\
  (length t <= 1)%nat /\
  (forall e, snd (entity.NewIndexIvfFlat entity.COSINE 1024) = Some e ->
     t = [] /\
     r = Ret (Some (Errorf_w "fail to create IVF flat index parameter: " e))) /\
  (r = Ret None <->
   snd (entity.NewIndexIvfFlat entity.COSINE 1024) = None /\
   exists ev, t = [ev] /\ failure (reply ev) = None).
Proof.
  cbv zeta. unfold buildIndex.
  destruct (entity.NewIndexIvfFlat entity.COSINE 1024) as [idx [e1|]]; cbn.
  - split; [intros ev Hev; elems|]. split; [lia|].
    split; [by intros e [= <-]|]. split; [done|]. by intros [? _].
  - go_unfold.
    destruct (client.CreateIndex (Client m) collectionName "embedding" idx
                false w) as [[e2|] w1]; cbn.
    + split; [intros ev Hev; by elems|]. split; [lia|].
      split; [done|]. split; [done|].
      intros [_ (ev & [= <-] & Hf)]. discriminate Hf.
    + split; [intros ev Hev; by elems|]. split; [lia|].
      split; [done|]. split; [|done].
      intros _. split; [done|]. by eexists.
Qed.

(** *** [CreateCollection] *)

(** X4. [CreateCollection] returns nil exactly when the index parameters
    were accepted and it made its two calls, the submission of the schema
    and the creation of the index, and both succeeded. *)
Theorem CreateCollection_succeeds_iff m collectionName w :
  let r := fst (run (CreateCollection m collectionName) w) in
  let t := trace (snd (run (CreateCollection m collectionName) w)) in
  r = Ret None <->
  snd (entity.NewIndexIvfFlat entity.COSINE 1024) = None /\
  request <$> t = CreateCollection_calls collectionName /\
  forall ev, ev ∈ t -> failure (reply ev) = None.
Proof.
  cbv zeta. unfold CreateCollection, buildIndex, CreateCollection_calls.
  go_unfold.
  destruct (client.CreateCollection (Client m) _ _ w) as [[e0|] w1]; cbn.
  { split; [done|]. intros (_ & Hreq & _). discriminate Hreq. }
  destruct (entity.NewIndexIvfFlat entity.COSINE 1024) as [idx [e1|]]; cbn.
  { split; [done|]. by intros (? & _). }
  destruct (client.CreateIndex (Client m) _ _ _ _ w1) as [[e2|] w2]; cbn.
  - split; [done|]. intros (_ & _ & Hall).
    specialize (Hall {| request := CallCreateIndex collectionName
                                     "embedding" idx false;
                        reply := ReplyError (Some e2) |}).
    discriminate Hall. apply list_elem_of_further, list_elem_of_here.
  - split; [|done]. intros _. do 2 (split; [done|]).
    intros ev Hev. by elems.
Qed.

(** X5. The calls of [CreateCollection] are always an initial segment of
    its two calls, and never empty: it makes no other call, none twice,
    and no index call before the submission. A call that fails is its
    last one, and its error comes back wrapped: once, under "failed to
    create collection: ", for the submission; twice, under "fail to
    create index: " and then "failed to build index: ", for the index. *)
Theorem CreateCollection_calls_prefix m collectionName w :
  let r := fst (run (CreateCollection m collectionName) w) in
  let t := trace (snd (run (CreateCollection m collectionName) w)) in
  t <> [] /\
  (request <$> t) `prefix_of` CreateCollection_calls collectionName /\
  forall (i : nat) ev e,
    t !! i = Some ev -> failure (reply ev) = Some e ->
    S i = length t /\
    (is_create_collection (request ev) = true ->
     r = Ret (Some (Errorf_w "failed to create collection: " e))) /\
    (is_create_index (request ev) = true ->
     r = Ret (Some (Errorf_w "failed to build index: "
                      (Errorf_w "fail to create index: " e)))) /\
    (is_create_collection (request ev) = true \/
     is_create_index (request ev) = true).
Proof.
  cbv zeta. unfold CreateCollection, buildIndex, CreateCollection_calls.
  go_unfold.
  destruct (client.CreateCollection (Client m) _ _ w) as [[e0|] w1]; cbn.
  { split; [done|]. split; [by eexists [_]|].
    intros [|[|i]] ev e Hi Hf; simplify_eq/=.
    split; [done|]. split; [done|]. split; [done|]. by left. }
  destruct (entity.NewIndexIvfFlat entity.COSINE 1024) as [idx [e1|]]; cbn.
  { split; [done|]. split; [by eexists [_]|].
    intros [|[|i]] ev e Hi Hf; simplify_eq/=. }
  destruct (client.CreateIndex (Client m) _ _ _ _ w1) as [[e2|] w2]; cbn.
  - split; [done|]. split; [by exists []|].
    intros [|[|[|i]]] ev e Hi Hf; simplify_eq/=.
    split; [done|]. split; [done|]. split; [done|]. by right.
  - split; [done|]. split; [by exists []|].
    intros [|[|[|i]]] ev e Hi Hf; simplify_eq/=.
Qed.

(** X6. The index that [CreateCollection] asks for is on a field of the
    schema it submitted just before, for the same collection: the one
    field of that schema that is a float vector. *)
Theorem CreateCollection_indexes_schema_vector_field
    m collectionName w ev :
  let t := trace (snd (run (CreateCollection m collectionName) w)) in
  ev ∈ t -> is_create_index (request ev) = true ->
  exists schema shards fieldName idx f,
    t !! 0%nat = Some {| request := CallCreateCollection schema shards;
                         reply := ReplyError None |} /\
    request ev
    = CallCreateIndex (entity.CollectionName schema) fieldName idx false /\
    f ∈ entity.Fields schema /\
    entity.Name f = fieldName /\
    entity.DataType f = entity.FieldTypeFloatVector /\
    forall g, g ∈ entity.Fields schema ->
      entity.DataType g = entity.FieldTypeFloatVector -> g = f.
Proof.
  cbv zeta. unfold CreateCollection, buildIndex. go_unfold.
  destruct (client.CreateCollection (Client m) _ _ w) as [[e0|] w1]; cbn.
  { intros Hev Hx. by elems. }
  destruct (entity.NewIndexIvfFlat entity.COSINE 1024) as [idx [e1|]]; cbn.
  { intros Hev Hx. by elems. }
  assert (Hgoal : forall err,
    ev ∈ [ {| request := CallCreateCollection (defineSchema collectionName)
                           entity.DefaultShardNumber;
              reply := ReplyError None |};
           {| request := CallCreateIndex collectionName "embedding" idx false;
              reply := ReplyError err |} ] ->
    is_create_index (request ev) = true ->
    exists schema shards fieldName idx0 f,
      Some {| request := CallCreateCollection (defineSchema collectionName)
                           entity.DefaultShardNumber;
              reply := ReplyError None |}
      = Some {| request := CallCreateCollection schema shards;
                reply := ReplyError None |} /\
      request ev
      = CallCreateIndex (entity.CollectionName schema) fieldName idx0 false /\
      f ∈ entity.Fields schema /\
      entity.Name f = fieldName /\
      entity.DataType f = entity.FieldTypeFloatVector /\
      forall g, g ∈ entity.Fields schema ->
        entity.DataType g = entity.FieldTypeFloatVector -> g = f).
  { intros err Hev Hx. elems; [discriminate Hx|].
    eexists (defineSchema collectionName), _, _, _, _.
    split; [reflexivity|]. split; [reflexivity|].
    split; [do 4 apply list_elem_of_further; apply list_elem_of_here|].
    do 2 (split; [reflexivity|]).
    intros g Hg Hty. cbn in Hg. elems; try discriminate Hty. reflexivity. }
  destruct (client.CreateIndex (Client m) _ _ _ _ w1) as [err w2]; cbn.
  destruct err; apply Hgoal.
Qed.

(** *** [Search]: the paths that end early *)

(** X7. When the encoding of the query fails, [Search] returns no
    documents and the wrapped encoder error, and that encoder call is the
    only call it made: the backend is not contacted. *)
Theorem Search_encode_failure_makes_no_backend_call
    m collectionName query w ev e :
  let r := fst (run (Search m collectionName query) w) in
  let t := trace (snd (run (Search m collectionName query) w)) in
  ev ∈ t -> is_encode (request ev) = true -> failure (reply ev) = Some e ->
  r = Ret ([], Some (Errorf_w "fail to encode query: " e)) /\ t = [ev].
Proof.
  cbv zeta. run_cases (Search_runs m collectionName query w);
    intros Hev Hx Hf; elems; try discriminate.
  cbn in Hf. by simplify_eq.
Qed.

(** X8. When loading the collection fails, [Search] returns no documents
    and the wrapped load error, and it neither searches nor releases. *)
Theorem Search_load_failure_skips_search m collectionName query w ev e :
  let r := fst (run (Search m collectionName query) w) in
  let t := trace (snd (run (Search m collectionName query) w)) in
  ev ∈ t -> is_load (request ev) = true -> failure (reply ev) = Some e ->
  r = Ret ([], Some (Errorf_w "failed to load collection: " e)) /\
  count is_search t = 0%nat /\ count is_release t = 0%nat.
Proof.
  cbv zeta. run_cases (Search_runs m collectionName query w);
    intros Hev Hx Hf; elems; try discriminate.
  cbn in Hf. by simplify_eq.
Qed.

(** *** [Search]: what is sent *)

(** X9. A search request of [Search] comes after a successful encoding of
    the query text and a successful, synchronous load of the collection.
    It carries exactly one query vector, the one the encoder returned,
    and it searches the field "embedding" of that collection by cosine
    similarity with top-k 10, no partition, no filter expression, and the
    IVF-flat search parameters for 10 probes. *)
Theorem Search_request_carries_encoded_query m collectionName query w req :
  let t := trace (snd (run (Search m collectionName query) w)) in
  req ∈ search_requests t ->
  exists v,
    t !! 0%nat = Some {| request := CallEncode query;
                         reply := ReplyVector v None |} /\
    t !! 1%nat = Some {| request := CallLoadCollection collectionName false;
                         reply := ReplyError None |} /\
    client.vectors req = [v] /\
    client.collName req = collectionName /\
    client.vectorField req = "embedding" /\
    client.metricType req = entity.COSINE /\
    client.topK req = 10 /\
    client.partitions req = [] /\
    client.expr req = "" /\
    client.sp req = fst (entity.NewIndexIvfFlatSearchParam 10).
Proof.
  cbv zeta. run_cases (Search_runs m collectionName query w); cbn;
    intros Hreq; elems; exists v; by repeat split.
Qed.

(** X10. The calls of [Search] are always an initial segment of encode,
    load, search, release, on the collection it was given, and never
    empty: it makes no other call and none twice. A call that fails is
    its last one, and [Search] then returns no documents and an error
    that wraps that call's error. *)
Theorem Search_calls_prefix m collectionName query w :
  let r := fst (run (Search m collectionName query) w) in
  let t := trace (snd (run (Search m collectionName query) w)) in
  t <> [] /\
  (exists v, (request <$> t) `prefix_of` Search_calls collectionName query v) /\
  forall (i : nat) ev e,
    t !! i = Some ev -> failure (reply ev) = Some e ->
    S i = length t /\
    exists e', r = Ret ([], Some e') /\ Unwrap e' = Some e.
Proof.
  cbv zeta. unfold Search_calls.
  run_cases (Search_runs m collectionName query w);
    (split; [done|]); split.
  all: try (exists v; cbn;
            first [by eexists [_; _; _] | by eexists [_; _]
                  | by eexists [_] | by exists []]).
  all: intros i ev e0 Hi Hf;
    repeat (destruct i as [|i]; cbn in Hi; simplify_eq;
            try discriminate Hf).
  all: cbn in Hf; simplify_eq; split; [done|]; by eexists.
Qed.

(** X11. [Search] returns without an error exactly when it made all four
    calls and each succeeded. *)
Theorem Search_succeeds_iff m collectionName query w :
  let r := fst (run (Search m collectionName query) w) in
  let t := trace (snd (run (Search m collectionName query) w)) in
  (exists documents, r = Ret (documents, None)) <->
  length t = 4%nat /\ forall ev, ev ∈ t -> failure (reply ev) = None.
Proof.
  cbv zeta. run_cases (Search_runs m collectionName query w); split.
  all: try (intros [documents0 Hr]; discriminate Hr).
  all: try (intros [Hlen _]; discriminate Hlen).
  - intros [documents0 Hr]. destruct err as [e|]; [discriminate Hr|].
    split; [done|]. intros ev Hev. by elems.
  - intros [_ Hall].
    specialize (Hall {| request := CallReleaseCollection collectionName;
                        reply := ReplyError err |}).
    cbn in Hall. rewrite Hall; [by eexists|].
    do 3 apply list_elem_of_further. apply list_elem_of_here.
Qed.

(** *** [Search]: panics *)

Lemma Search_decode_no_rows fields tc :
  client.GetColumn fields "title" = Some tc ->
  entity.ColumnLen tc <= 0 ->
  pure (W:=W) (Search_decode fields) (Ret []).
Proof.
  intros Ht Hlen s. unfold Search_decode, Len. rewrite Ht. go_unfold.
  replace (Z.to_nat (entity.ColumnLen tc)) with 0%nat by lia. reflexivity.
Qed.

Lemma Search_decode_first_row_panics fields p :
  first_row_panics fields p ->
  pure (W:=W) (Search_decode fields) (Panic p).
Proof.
  unfold first_row_panics, reads, Search_decode, Len.
  intros (tc & Ht & Hlen & Hrow) s. rewrite Ht. go_unfold.
  destruct (Z.to_nat (entity.ColumnLen tc)) as [|n] eqn:En; [lia|].
  rewrite Search_loop_S. unfold decode_row.
  destruct Hrow as [->|(title & e1 & cc & -> & -> & Hrow)]; [reflexivity|].
  destruct Hrow as [->|(content & e2 & gc & -> & -> & ->)]; reflexivity.
Qed.

Lemma pure_agree {A : Type} (c : Go W A) r1 r2 (w : W) :
  pure c r1 -> pure c r2 -> r1 = r2.
Proof.
  intros H1 H2. specialize (H1 {| world := w; trace := [] |}).
  rewrite H2 in H1. congruence.
Qed.

(** X12. When [Search] panics, the query had been encoded, the
    collection loaded and the search had succeeded, and there is no
    release: the collection stays loaded. When the search gave no result
    set, the panic is the index out of range of reading element 0. *)
Theorem Search_panic_leaves_collection_loaded m collectionName query w p :
  let r := fst (run (Search m collectionName query) w) in
  let t := trace (snd (run (Search m collectionName query) w)) in
  r = Panic p ->
  count is_release t = 0%nat /\
  exists v rs,
    t = [ {| request := CallEncode query; reply := ReplyVector v None |};
          {| request := CallLoadCollection collectionName false;
             reply := ReplyError None |};
          {| request := CallSearch (sent collectionName v);
             reply := ReplyResults rs None |} ] /\
    (rs = [] -> p = IndexOutOfRange 0 0).
Proof.
  cbv zeta. run_cases (Search_runs m collectionName query w);
    intros Hr; try discriminate Hr.
  - simplify_eq. split; [done|]. by exists v, [].
  - simplify_eq. split; [done|]. by exists v, (first :: rs).
Qed.

(** X13. When the search succeeded and a column that [Search] calls on
    the first row of the first result set is absent (the title column;
    or, its first value read, the content column; or, that one read too,
    the category column), [Search] panics with a call on a nil column
    instead of returning an error, and does not release the collection. *)
Theorem Search_missing_column_panics
    m collectionName query w req first rs :
  let r := fst (run (Search m collectionName query) w) in
  let t := trace (snd (run (Search m collectionName query) w)) in
  {| request := CallSearch req;
     reply := ReplyResults (first :: rs) None |} ∈ t ->
  missing_column (client.Fields first) ->
  r = Panic NilDereference /\ count is_release t = 0%nat.
Proof.
  cbv zeta. run_cases (Search_runs m collectionName query w);
    intros Hev Hmiss; elems_eq.
  all: match goal with
       | Hdec : pure _ _ |- _ =>
           pose proof (pure_agree _ _ _ w Hdec
                         (Search_decode_missing_column _ Hmiss)) as Heq
       end.
  - by simplify_eq.
  - discriminate Heq.
Qed.

(** X21. When the search succeeded and a column method panics on the
    first row of the first result set, as the SDK's string column does
    for a content or category column that is empty while the title
    column is not, [Search] panics with that panic instead of returning,
    and does not release the collection. *)
Theorem Search_column_panic_propagates
    m collectionName query w req first rs p :
  let r := fst (run (Search m collectionName query) w) in
  let t := trace (snd (run (Search m collectionName query) w)) in
  {| request := CallSearch req;
     reply := ReplyResults (first :: rs) None |} ∈ t ->
  first_row_panics (client.Fields first) p ->
  r = Panic p /\ count is_release t = 0%nat.
Proof.
  cbv zeta. run_cases (Search_runs m collectionName query w);
    intros Hev Hrow; elems_eq.
  all: match goal with
       | Hdec : pure _ _ |- _ =>
           pose proof (pure_agree _ _ _ w Hdec
                         (Search_decode_first_row_panics _ _ Hrow)) as Heq
       end.
  - by simplify_eq.
  - discriminate Heq.
Qed.

(** X14. When the title column of the first result set has no row,
    [Search] returns no documents, whatever the other columns are, even
    absent; it still releases the collection, and its error is that of
    the release. *)
Theorem Search_no_hits m collectionName query w req first rs titles :
  let r := fst (run (Search m collectionName query) w) in
  let t := trace (snd (run (Search m collectionName query) w)) in
  {| request := CallSearch req;
     reply := ReplyResults (first :: rs) None |} ∈ t ->
  client.GetColumn (client.Fields first) "title" = Some titles ->
  entity.ColumnLen titles <= 0 ->
  exists err,
    last t = Some {| request := CallReleaseCollection collectionName;
                     reply := ReplyError err |} /\
    r = Ret ([], Errorf_w "failed to release collection: " <$> err).
Proof.
  cbv zeta. run_cases (Search_runs m collectionName query w);
    intros Hev Ht Hlen; elems_eq.
  - match goal with
    | Hdec : pure _ (Panic _) |- _ =>
        pose proof (pure_agree _ _ _ w Hdec
                      (Search_decode_no_rows _ _ Ht Hlen)) as Habs
    end.
    discriminate Habs.
  - match goal with
    | Hdec : pure _ (Ret _) |- _ =>
        pose proof (pure_agree _ _ _ w Hdec
                      (Search_decode_no_rows _ _ Ht Hlen)) as Heq
    end.
    simplify_eq. exists err. split; [done|]. by destruct err.
Qed.

(** *** [UpsertDocuments] *)

Lemma requests_encodings documents vectors :
  length vectors = length documents ->
  request <$> encodings documents vectors
  = (fun d => CallEncode (domain.Content d)) <$> documents.
Proof.
  revert vectors. induction documents as [|d documents IH];
    intros [|v vectors] Hlen; try done.
  cbn. f_equal. apply IH. by injection Hlen.
Qed.

Lemma count_is_encode_encodings documents vectors :
  length vectors = length documents ->
  count is_encode (encodings documents vectors) = length documents.
Proof.
  revert vectors. induction documents as [|d documents IH];
    intros [|v vectors] Hlen; try done.
  cbn. f_equal. apply IH. by injection Hlen.
Qed.

(** X15. The calls of [UpsertDocuments] are always an initial segment of:
    one encoding per document, of its content and in the order of the
    batch, then one upsert into the named collection. So a document after
    one that failed to encode is never encoded, and nothing is encoded
    twice. A call that fails is its last one, and its error comes back
    wrapped. *)
Theorem UpsertDocuments_calls_prefix m collectionName documents w :
  let r := fst (run (UpsertDocuments m collectionName documents) w) in
  let t := trace (snd (run (UpsertDocuments m collectionName documents) w)) in
  t <> [] /\
  (exists vectors,
     (request <$> t)
       `prefix_of` UpsertDocuments_calls collectionName documents vectors) /\
  forall (i : nat) ev e,
    t !! i = Some ev -> failure (reply ev) = Some e ->
    S i = length t /\
    exists e', r = Ret (Some e') /\ Unwrap e' = Some e.
Proof.
  cbv zeta. unfold UpsertDocuments_calls.
  run_cases (UpsertDocuments_runs m collectionName documents w).
  - split; [by destruct (encodings pre vectors)|]. split.
    + exists []. subst documents.
      rewrite fmap_app, requests_encodings by done. cbn.
      rewrite fmap_app. cbn. rewrite <- !app_assoc. cbn.
      apply prefix_app, prefix_cons, prefix_nil.
    + intros i ev e0 Hi Hf.
      assert (Hlen := length_encodings pre vectors ltac:(done)).
      destruct (decide (i < length pre)%nat) as [Hlt|Hge].
      * rewrite lookup_app_l in Hi by lia.
        apply list_elem_of_lookup_2, encodings_succeed in Hi as [_ Hnone].
        congruence.
      * rewrite lookup_app_r in Hi by lia.
        destruct (i - length (encodings pre vectors))%nat eqn:Ei;
          [|discriminate Hi].
        cbn in Hi. simplify_eq. cbn in Hf. simplify_eq.
        rewrite length_app. cbn. split; [lia|]. by eexists.
  - split; [by destruct (encodings documents vectors)|]. split.
    + exists vectors. rewrite fmap_app, requests_encodings by done.
      reflexivity.
    + intros i ev e0 Hi Hf.
      assert (Hlen := length_encodings documents vectors ltac:(done)).
      destruct (decide (i < length documents)%nat) as [Hlt|Hge].
      * rewrite lookup_app_l in Hi by lia.
        apply list_elem_of_lookup_2, encodings_succeed in Hi as [_ Hnone].
        congruence.
      * rewrite lookup_app_r in Hi by lia.
        destruct (i - length (encodings documents vectors))%nat eqn:Ei;
          [|discriminate Hi].
        cbn in Hi. simplify_eq. cbn in Hf. simplify_eq.
        rewrite length_app. cbn. split; [lia|]. by eexists.
Qed.

(** X16. [UpsertDocuments] returns nil exactly when it made one call more
    than the batch has documents and every call succeeded. *)
Theorem UpsertDocuments_succeeds_iff m collectionName documents w :
  let r := fst (run (UpsertDocuments m collectionName documents) w) in
  let t := trace (snd (run (UpsertDocuments m collectionName documents) w)) in
  r = Ret None <->
  length t = S (length documents) /\
  forall ev, ev ∈ t -> failure (reply ev) = None.
Proof.
  cbv zeta.
  run_cases (UpsertDocuments_runs m collectionName documents w); split.
  - intros Hr. discriminate Hr.
  - intros [_ Hall].
    specialize (Hall {| request := CallEncode (domain.Content d);
                        reply := ReplyVector v (Some e) |}).
    discriminate Hall. apply elem_of_app. right. apply list_elem_of_here.
  - intros Hr. destruct err as [e|]; [discriminate Hr|]. split.
    + rewrite length_app, length_encodings by done. cbn. lia.
    + intros ev Hev. apply elem_of_app in Hev as [Hev|Hev].
      * by apply encodings_succeed in Hev as [_ ?].
      * by apply list_elem_of_singleton in Hev as ->.
  - intros [_ Hall].
    specialize (Hall {| request :=
                          CallUpsert collectionName ""
                            (columns documents vectors);
                        reply := ReplyColumn c err |}).
    cbn in Hall. rewrite Hall; [done|].
    apply elem_of_app. right. apply list_elem_of_here.
Qed.

(** X17. When the upsert request fails, every document of the batch had
    been encoded, the upsert is the last call, and [UpsertDocuments]
    returns the backend's error wrapped under "fail to upsert data". *)
Theorem UpsertDocuments_upsert_failure m collectionName documents w ev e :
  let r := fst (run (UpsertDocuments m collectionName documents) w) in
  let t := trace (snd (run (UpsertDocuments m collectionName documents) w)) in
  ev ∈ t -> is_upsert (request ev) = true -> failure (reply ev) = Some e ->
  r = Ret (Some (Errorf_w "fail to upsert data, err: " e)) /\
  count is_encode t = length documents /\
  last t = Some ev.
Proof.
  cbv zeta.
  run_cases (UpsertDocuments_runs m collectionName documents w);
    intros Hev Hx Hf; apply elem_of_app in Hev as [Hev|Hev].
  - apply encodings_not_upsert in Hev. congruence.
  - apply list_elem_of_singleton in Hev as ->. discriminate Hx.
  - apply encodings_not_upsert in Hev. congruence.
  - apply list_elem_of_singleton in Hev as ->. cbn in Hf. subst err.
    split; [done|].
    rewrite count_app, count_is_encode_encodings by done.
    rewrite last_snoc. cbn. split; [lia|done].
Qed.

(** X18. An empty batch is still written: [UpsertDocuments] makes no
    encoder call and one upsert request with five empty columns, and
    returns what that request gives. *)
Theorem UpsertDocuments_empty_batch m collectionName w :
  let r := fst (run (UpsertDocuments m collectionName []) w) in
  let t := trace (snd (run (UpsertDocuments m collectionName []) w)) in
  exists c err,
    t = [ {| request :=
               CallUpsert collectionName ""
                 [ entity.NewColumnVarChar "id" [];
                   entity.NewColumnVarChar "title" [];
                   entity.NewColumnVarChar "content" [];
                   entity.NewColumnVarChar "category" [];
                   entity.NewColumnFloatVector "embedding" 4096 [] ];
             reply := ReplyColumn c err |} ] /\
    r = Ret (Errorf_w "fail to upsert data, err: " <$> err).
Proof.
  cbv zeta. run_cases (UpsertDocuments_runs m collectionName [] w).
  - by destruct pre.
  - destruct vectors; [|done]. by exists c, err.
Qed.

(** *** The operations agree on the schema *)

Lemma buildIndex_call_shape m collectionName w ev :
  ev ∈ trace (snd (run (buildIndex m collectionName) w)) ->
  request ev
  = CallCreateIndex collectionName "embedding"
      (fst (entity.NewIndexIvfFlat entity.COSINE 1024)) false.
Proof.
  unfold buildIndex.
  destruct (entity.NewIndexIvfFlat entity.COSINE 1024) as [idx [e1|]]; cbn.
  - intros Hev. elems.
  - go_unfold.
    destruct (client.CreateIndex (Client m) collectionName "embedding" idx
                false w) as [[e2|] w1]; cbn; intros Hev; by elems.
Qed.

(** X19. Take column constructors that, as the SDK's do, give a column
    the name they are handed. Then an upsert request of [UpsertDocuments]
    goes to the collection it was given, into no partition, with one
    column per field of the schema that [CreateCollection] submits, under
    the field's name and in the schema's order. *)
Theorem UpsertDocuments_columns_match_schema
    m collectionName documents w ev coll partition cols :
  let t := trace (snd (run (UpsertDocuments m collectionName documents) w)) in
  (forall name values,
     entity.ColumnName (entity.NewColumnVarChar name values) = name) ->
  (forall name dim values,
     entity.ColumnName (entity.NewColumnFloatVector name dim values) = name) ->
  ev ∈ t -> request ev = CallUpsert coll partition cols ->
  coll = collectionName /\ partition = "" /\
  entity.ColumnName <$> cols
  = entity.Name <$> entity.Fields (defineSchema collectionName).
Proof.
  cbv zeta. intros Hvar Hvec.
  run_cases (UpsertDocuments_runs m collectionName documents w);
    intros Hev Hreq; apply elem_of_app in Hev as [Hev|Hev].
  - apply encodings_not_upsert in Hev. by rewrite Hreq in Hev.
  - apply list_elem_of_singleton in Hev as ->. discriminate Hreq.
  - apply encodings_not_upsert in Hev. by rewrite Hreq in Hev.
  - apply list_elem_of_singleton in Hev as ->. cbn in Hreq.
    injection Hreq as <- <- <-. do 2 (split; [done|]).
    unfold columns. cbn. by rewrite !Hvar, Hvec.
Qed.

(** X20. A search request of [Search] asks only for fields that the
    schema of [CreateCollection] defines as varchar fields outside the
    primary key, and searches a field that the schema defines as a float
    vector, the same field that [buildIndex] indexes. *)
Theorem Search_fields_in_schema m collectionName query w req :
  let t := trace (snd (run (Search m collectionName query) w)) in
  req ∈ search_requests t ->
  (forall name, name ∈ client.outputFields req ->
     exists f, f ∈ entity.Fields (defineSchema collectionName) /\
               entity.Name f = name /\
               entity.DataType f = entity.FieldTypeVarChar /\
               entity.PrimaryKey f = false) /\
  (exists f, f ∈ entity.Fields (defineSchema collectionName) /\
             entity.Name f = client.vectorField req /\
             entity.DataType f = entity.FieldTypeFloatVector) /\
  (forall w' ev, ev ∈ trace (snd (run (buildIndex m collectionName) w')) ->
     exists idx, request ev
                 = CallCreateIndex collectionName (client.vectorField req)
                     idx false).
Proof.
  cbv zeta. intros Hreq.
  assert (Hsent : exists v, req = sent collectionName v).
  { revert Hreq.
    run_cases (Search_runs m collectionName query w); cbn;
      intros Hreq; elems; by eexists. }
  destruct Hsent as [v ->]. cbn. split; [|split].
  - intros name Hname. elems; eexists.
    + split; [apply list_elem_of_further, list_elem_of_here|done].
    + split; [do 2 apply list_elem_of_further; apply list_elem_of_here
             |done].
    + split; [do 3 apply list_elem_of_further; apply list_elem_of_here
             |done].
  - eexists.
    split; [do 4 apply list_elem_of_further; apply list_elem_of_here|done].
  - intros w' ev Hev. eexists.
    by apply (buildIndex_call_shape m collectionName w').
Qed.

End Properties.

(** ** The adapter on concrete inputs *)
Section Concrete.
#[local] Existing Instance fake.api.

(** *** Runs of the stand-in *)

Lemma run_Search_healthy :
  run (Search fake.repo "docs" "q") fake.healthy
  = (Ret ([fake.doc "" "Go" "A language" "tech"], None),
     {| world := fake.healthy;
        trace :=
          [ {| request := CallEncode "q"; reply := ReplyVector [1] None |};
            {| request := CallLoadCollection "docs" false;
               reply := ReplyError None |};
            {| request := CallSearch (sent "docs" [1]);
               reply := ReplyResults (fst (fake.search fake.healthy)) None |};
            {| request := CallReleaseCollection "docs";
               reply := ReplyError None |} ] |}).
Proof. reflexivity. Qed.

Lemma run_Search_search_down :
  run (Search fake.repo "docs" "q") fake.search_down
  = (Ret ([], Some (Errorf_w "fail to search collection: "
                      (errorString "deadline exceeded"))),
     {| world := fake.search_down;
        trace :=
          [ {| request := CallEncode "q"; reply := ReplyVector [1] None |};
            {| request := CallLoadCollection "docs" false;
               reply := ReplyError None |};
            {| request := CallSearch (sent "docs" [1]);
               reply := ReplyResults []
                          (Some (errorString "deadline exceeded")) |} ] |}).
Proof. reflexivity. Qed.

Lemma run_Search_no_result_sets :
  run (Search fake.repo "docs" "q") fake.no_result_sets
  = (Panic (IndexOutOfRange 0 0),
     {| world := fake.no_result_sets;
        trace :=
          [ {| request := CallEncode "q"; reply := ReplyVector [1] None |};
            {| request := CallLoadCollection "docs" false;
               reply := ReplyError None |};
            {| request := CallSearch (sent "docs" [1]);
               reply := ReplyResults [] None |} ] |}).
Proof. reflexivity. Qed.

Lemma run_Search_release_down :
  run (Search fake.repo "docs" "q") fake.release_down
  = (Ret ([], Some (Errorf_w "failed to release collection: "
                      (errorString "release refused"))),
     {| world := fake.release_down;
        trace :=
          [ {| request := CallEncode "q"; reply := ReplyVector [1] None |};
            {| request := CallLoadCollection "docs" false;
               reply := ReplyError None |};
            {| request := CallSearch (sent "docs" [1]);
               reply := ReplyResults (fst (fake.search fake.healthy)) None |};
            {| request := CallReleaseCollection "docs";
               reply := ReplyError
                          (Some (errorString "release refused")) |} ] |}).
Proof. reflexivity. Qed.


Lemma run_Search_empty_content :
  run (Search fake.repo "docs" "q") fake.empty_content
  = (Panic (IndexOutOfRange 0 0),
     {| world := fake.empty_content;
        trace :=
          [ {| request := CallEncode "q"; reply := ReplyVector [1] None |};
            {| request := CallLoadCollection "docs" false;
               reply := ReplyError None |};
            {| request := CallSearch (sent "docs" [1]);
               reply := ReplyResults (fst (fake.search fake.empty_content))
                          None |} ] |}).
Proof. reflexivity. Qed.


(** *** C1 *)

(** C1, refuted as stated: the request of a search on a healthy backend
    does not have the claimed configuration, since it does not exclude
    growing segments. *)
Lemma Search_request_includes_growing :
  ~ (forall req,
        req ∈ search_requests
                (trace (snd (run (Search fake.repo "docs" "q")
                                 fake.healthy))) ->
        configured_as_claimed (client.resolve fake.defaultOption req)).
Proof.
  rewrite run_Search_healthy. intros Hclaim.
  destruct (Hclaim (sent (H:=fake.api) "docs" [1])) as (_ & _ & _ & Hgrowing).
  - apply list_elem_of_here.
  - discriminate Hgrowing.
Qed.

Lemma Search_request_configuration_witness :
  sent (H:=fake.api) "docs" [1]
    ∈ search_requests
        (trace (snd (run (Search fake.repo "docs" "q") fake.healthy))) /\
  configured (client.resolve fake.defaultOption (sent (H:=fake.api) "docs" [1])).
Proof.
  assert (Hreq :
    sent (H:=fake.api) "docs" [1]
      ∈ search_requests
          (trace (snd (run (Search fake.repo "docs" "q") fake.healthy)))).
  { rewrite run_Search_healthy. apply list_elem_of_here. }
  split; [exact Hreq|].
  exact (Search_request_configuration fake.repo "docs" "q"
           fake.healthy _ fake.defaultOption Hreq).
Defined.

(** *** C2 *)

Lemma Search_release_only_after_successful_search_witness :
  count is_release
    (trace (snd (run (Search fake.repo "docs" "q") fake.search_down)))
  = 0%nat /\
  fst (run (Search fake.repo "docs" "q") fake.search_down)
  = Ret ([], Some (Errorf_w "fail to search collection: "
                     (errorString "deadline exceeded"))).
Proof.
  apply (proj1 (Search_release_only_after_successful_search
                  fake.repo "docs" "q" fake.search_down)
           {| request := CallSearch (sent (H:=fake.api) "docs" [1]);
              reply := ReplyResults []
                         (Some (errorString "deadline exceeded")) |}).
  - rewrite run_Search_search_down.
    do 2 apply list_elem_of_further. apply list_elem_of_here.
  - reflexivity.
  - reflexivity.
Defined.

(** *** C7 *)

Lemma Search_release_failure_discards_results_witness :
  fst (run (Search fake.repo "docs" "q") fake.release_down)
  = Ret ([], Some (Errorf_w "failed to release collection: "
                     (errorString "release refused"))).
Proof.
  apply (Search_release_failure_discards_results
           fake.repo "docs" "q" fake.release_down
           {| request := CallSearch (sent (H:=fake.api) "docs" [1]);
              reply := ReplyResults (fst (fake.search fake.healthy)) None |}
           {| request := CallReleaseCollection "docs";
              reply := ReplyError (Some (errorString "release refused")) |}).
  - rewrite run_Search_release_down.
    do 2 apply list_elem_of_further. apply list_elem_of_here.
  - reflexivity.
  - reflexivity.
  - rewrite run_Search_release_down.
    do 3 apply list_elem_of_further. apply list_elem_of_here.
  - reflexivity.
  - reflexivity.
Defined.

(** *** C8 *)

Lemma Search_results_have_no_id_witness :
  fst (run (Search fake.repo "docs" "q") fake.healthy)
  = Ret ([fake.doc "" "Go" "A language" "tech"], None) /\
  (forall d, d ∈ [fake.doc "" "Go" "A language" "tech"] ->
             domain.ID d = "").
Proof.
  split; [by rewrite run_Search_healthy|].
  apply (Search_results_have_no_id fake.repo "docs" "q" fake.healthy).
  by rewrite run_Search_healthy.
Defined.

(** *** C9 *)

Lemma Search_first_result_set_unchecked_witness :
  fst (run (Search fake.repo "docs" "q") fake.no_result_sets)
  = Panic (IndexOutOfRange 0 0).
Proof.
  apply (Search_first_result_set_unchecked
           fake.repo "docs" "q" fake.no_result_sets
           {| request := CallSearch (sent (H:=fake.api) "docs" [1]);
              reply := ReplyResults [] None |}).
  - rewrite run_Search_no_result_sets.
    do 2 apply list_elem_of_further. apply list_elem_of_here.
  - reflexivity.
  - reflexivity.
Defined.

(** *** C10 *)


(** *** C3 *)



Lemma run_UpsertDocuments_encoder_picky :
  run (UpsertDocuments fake.repo "docs"
         [fake.doc "1" "Go" "A language" "tech";
          fake.doc "2" "Nothing" "" "misc";
          fake.doc "3" "Tea" "A drink" "food"])
      fake.encoder_picky
  = (Ret (Some (Errorf_w "fail to encode content: "
                  (errorString "nothing to encode"))),
     {| world := fake.encoder_picky;
        trace :=
          [ {| request := CallEncode "A language";
               reply := ReplyVector [10] None |};
            {| request := CallEncode "";
               reply := ReplyVector []
                          (Some (errorString "nothing to encode")) |} ] |}).
Proof. reflexivity. Qed.


(** *** C4 *)

Lemma run_UpsertDocuments_healthy :
  run (UpsertDocuments fake.repo "docs"
         [fake.doc "1" "Go" "A language" "tech";
          fake.doc "2" "Tea" "A drink" "food"])
      fake.healthy
  = (Ret None,
     {| world := fake.healthy;
        trace :=
          [ {| request := CallEncode "A language";
               reply := ReplyVector [10] None |};
            {| request := CallEncode "A drink";
               reply := ReplyVector [7] None |};
            {| request :=
                 CallUpsert "docs" ""
                   [ fake.ColumnVarChar "id" ["1"; "2"];
                     fake.ColumnVarChar "title" ["Go"; "Tea"];
                     fake.ColumnVarChar "content" ["A language"; "A drink"];
                     fake.ColumnVarChar "category" ["tech"; "food"];
                     fake.ColumnFloatVector "embedding" 4096 [[10]; [7]] ];
               reply := ReplyColumn None None |} ] |}).
Proof. reflexivity. Qed.

Lemma UpsertDocuments_submits_parallel_columns_witness :
  (forall ev,
      ev ∈ trace (snd (run (UpsertDocuments fake.repo "docs"
                              [fake.doc "1" "Go" "A language" "tech";
                               fake.doc "2" "Tea" "A drink" "food"])
                           fake.healthy)) ->
      is_encode (request ev) = true -> failure (reply ev) = None) /\
  count is_upsert
    (trace (snd (run (UpsertDocuments fake.repo "docs"
                        [fake.doc "1" "Go" "A language" "tech";
                         fake.doc "2" "Tea" "A drink" "food"])
                     fake.healthy)))
  = 1%nat.
Proof.
  assert (Hall :
    forall ev,
      ev ∈ trace (snd (run (UpsertDocuments fake.repo "docs"
                              [fake.doc "1" "Go" "A language" "tech";
                               fake.doc "2" "Tea" "A drink" "food"])
                           fake.healthy)) ->
      is_encode (request ev) = true -> failure (reply ev) = None).
  { rewrite run_UpsertDocuments_healthy. intros ev Hev _. cbn in Hev.
    repeat (apply elem_of_cons in Hev as [->|Hev]; [reflexivity|]).
    by apply elem_of_nil in Hev. }
  split; [exact Hall|].
  destruct (UpsertDocuments_submits_parallel_columns fake.repo "docs"
              [fake.doc "1" "Go" "A language" "tech";
               fake.doc "2" "Tea" "A drink" "food"] fake.healthy Hall)
    as (ids & titles & contents & categories & embeddings & c & err
        & _ & Hcount & _).
  exact Hcount.
Defined.

(** *** C5 *)

Lemma run_CreateCollection_create_refused :
  run (CreateCollection fake.repo "docs") fake.create_refused
  = (Ret (Some (Errorf_w "failed to create collection: "
                  (errorString "collection exists"))),
     {| world := fake.create_refused;
        trace :=
          [ {| request := CallCreateCollection (defineSchema "docs") 0;
               reply := ReplyError
                          (Some (errorString "collection exists")) |} ] |}).
Proof. reflexivity. Qed.

Lemma CreateCollection_schema_then_index_witness :
  fst (run (CreateCollection fake.repo "docs") fake.create_refused)
  = Ret (Some (Errorf_w "failed to create collection: "
                 (errorString "collection exists"))) /\
  count is_create_index
    (trace (snd (run (CreateCollection fake.repo "docs")
                     fake.create_refused)))
  = 0%nat.
Proof.
  apply (proj1 (proj2 (proj2 (CreateCollection_schema_then_index
                                fake.repo "docs" fake.create_refused)))
           {| request := CallCreateCollection (H:=fake.api)
                           (defineSchema "docs") 0;
              reply := ReplyError (Some (errorString "collection exists")) |}).
  - rewrite run_CreateCollection_create_refused. apply list_elem_of_here.
  - reflexivity.
  - reflexivity.
Defined.

(** *** C6 *)

Lemma defineSchema_five_fields_witness :
  entity.Name
    {| entity.Name := "id";
       entity.DataType := entity.FieldTypeVarChar;
       entity.PrimaryKey := true;
       entity.AutoID := false;
       entity.TypeParams := {[ "max_length" := "255" ]} |}
  = "id".
Proof.
  apply (proj2 (proj2 (proj2 (proj2 (proj2 (proj2 (proj2 (proj2 (proj2
           (defineSchema_five_fields (H:=fake.api) "docs")))))))))).
  - apply list_elem_of_here.
  - reflexivity.
Defined.

(** *** Further runs of the stand-in *)

Lemma run_List_two_collections :
  run (List fake.catalog_repo) fake.two_collections
  = (Ret (["docs"; "notes"], None),
     {| world := fake.two_collections;
        trace :=
          [ {| request := CallListCollections;
               reply := ReplyCollections
                          (fst (fake.listing fake.two_collections))
                          None |} ] |}).
Proof. reflexivity. Qed.

Lemma run_DeleteCollection_catalog_down :
  run (DeleteCollection fake.catalog_repo "docs") fake.catalog_down
  = (Ret (Some (Errorf_w "failed to drop collection: "
                  (errorString "collection not found"))),
     {| world := fake.catalog_down;
        trace :=
          [ {| request := CallDropCollection "docs";
               reply := ReplyError
                          (Some (errorString "collection not found")) |} ] |}).
Proof. reflexivity. Qed.

Lemma run_buildIndex_index_refused :
  run (buildIndex fake.repo "docs") fake.index_refused
  = (Ret (Some (Errorf_w "fail to create index: "
                  (errorString "index refused"))),
     {| world := fake.index_refused;
        trace :=
          [ {| request := CallCreateIndex "docs" "embedding"
                            (Some (entity.COSINE, 1024)) false;
               reply := ReplyError
                          (Some (errorString "index refused")) |} ] |}).
Proof. reflexivity. Qed.

Lemma run_CreateCollection_healthy :
  run (CreateCollection fake.repo "docs") fake.healthy
  = (Ret None,
     {| world := fake.healthy;
        trace :=
          [ {| request := CallCreateCollection (defineSchema "docs") 0;
               reply := ReplyError None |};
            {| request := CallCreateIndex "docs" "embedding"
                            (Some (entity.COSINE, 1024)) false;
               reply := ReplyError None |} ] |}).
Proof. reflexivity. Qed.

Lemma run_CreateCollection_index_refused :
  run (CreateCollection fake.repo "docs") fake.index_refused
  = (Ret (Some (Errorf_w "failed to build index: "
                  (Errorf_w "fail to create index: "
                     (errorString "index refused")))),
     {| world := fake.index_refused;
        trace :=
          [ {| request := CallCreateCollection (defineSchema "docs") 0;
               reply := ReplyError None |};
            {| request := CallCreateIndex "docs" "embedding"
                            (Some (entity.COSINE, 1024)) false;
               reply := ReplyError
                          (Some (errorString "index refused")) |} ] |}).
Proof. reflexivity. Qed.

Lemma run_Search_encoder_down :
  run (Search fake.repo "docs" "q") fake.encoder_down
  = (Ret ([], Some (Errorf_w "fail to encode query: "
                      (errorString "encoder unavailable"))),
     {| world := fake.encoder_down;
        trace :=
          [ {| request := CallEncode "q";
               reply := ReplyVector []
                          (Some (errorString "encoder unavailable")) |} ] |}).
Proof. reflexivity. Qed.

Lemma run_Search_load_down :
  run (Search fake.repo "docs" "q") fake.load_down
  = (Ret ([], Some (Errorf_w "failed to load collection: "
                      (errorString "collection not found"))),
     {| world := fake.load_down;
        trace :=
          [ {| request := CallEncode "q"; reply := ReplyVector [1] None |};
            {| request := CallLoadCollection "docs" false;
               reply := ReplyError
                          (Some (errorString "collection not found")) |} ] |}).
Proof. reflexivity. Qed.

Lemma run_Search_missing_content :
  run (Search fake.repo "docs" "q") fake.missing_content
  = (Panic NilDereference,
     {| world := fake.missing_content;
        trace :=
          [ {| request := CallEncode "q"; reply := ReplyVector [1] None |};
            {| request := CallLoadCollection "docs" false;
               reply := ReplyError None |};
            {| request := CallSearch (sent "docs" [1]);
               reply := ReplyResults
                          (fst (fake.search fake.missing_content))
                          None |} ] |}).
Proof. reflexivity. Qed.

Lemma run_Search_no_hits :
  run (Search fake.repo "docs" "q") fake.no_hits
  = (Ret ([], None),
     {| world := fake.no_hits;
        trace :=
          [ {| request := CallEncode "q"; reply := ReplyVector [1] None |};
            {| request := CallLoadCollection "docs" false;
               reply := ReplyError None |};
            {| request := CallSearch (sent "docs" [1]);
               reply := ReplyResults (fst (fake.search fake.no_hits)) None |};
            {| request := CallReleaseCollection "docs";
               reply := ReplyError None |} ] |}).
Proof. reflexivity. Qed.

Lemma run_UpsertDocuments_upsert_down :
  run (UpsertDocuments fake.repo "docs"
         [fake.doc "1" "Go" "A language" "tech";
          fake.doc "2" "Tea" "A drink" "food"])
      fake.upsert_down
  = (Ret (Some (Errorf_w "fail to upsert data, err: "
                  (errorString "content too long"))),
     {| world := fake.upsert_down;
        trace :=
          [ {| request := CallEncode "A language";
               reply := ReplyVector [10] None |};
            {| request := CallEncode "A drink";
               reply := ReplyVector [7] None |};
            {| request :=
                 CallUpsert "docs" ""
                   [ fake.ColumnVarChar "id" ["1"; "2"];
                     fake.ColumnVarChar "title" ["Go"; "Tea"];
                     fake.ColumnVarChar "content" ["A language"; "A drink"];
                     fake.ColumnVarChar "category" ["tech"; "food"];
                     fake.ColumnFloatVector "embedding" 4096 [[10]; [7]] ];
               reply := ReplyColumn None
                          (Some (errorString "content too long")) |} ] |}).
Proof. reflexivity. Qed.

(** *** X1 to X6 *)

Lemma List_returns_names_in_order_witness :
  exists names,
    fst (run (List fake.catalog_repo) fake.two_collections)
    = Ret (names, None) /\
    names !! 1%nat = Some "notes".
Proof.
  destruct (List_returns_names_in_order fake.catalog_repo
              fake.two_collections) as (l & err & Ht & _ & Hok).
  rewrite run_List_two_collections in Ht. injection Ht as <- <-.
  destruct (Hok eq_refl) as (names & Hr & _ & Hnames).
  exists names. split; [exact Hr|].
  exact (Hnames 1%nat {| entity.collection_Name := "notes" |} eq_refl).
Defined.

Lemma DeleteCollection_single_drop_witness :
  exists e',
    fst (run (DeleteCollection fake.catalog_repo "docs") fake.catalog_down)
    = Ret (Some e') /\
    Unwrap e' = Some (errorString "collection not found").
Proof.
  destruct (DeleteCollection_single_drop fake.catalog_repo "docs"
              fake.catalog_down) as (err & Ht & _ & Hfail).
  rewrite run_DeleteCollection_catalog_down in Ht. injection Ht as <-.
  destruct (Hfail _ eq_refl) as (e' & Hr & Hu & _).
  exists e'. split; [exact Hr|exact Hu].
Defined.

Lemma buildIndex_request_witness :
  request
    {| request := CallCreateIndex (H:=fake.api) "docs" "embedding"
                    (Some (entity.COSINE, 1024)) false;
       reply := ReplyError (Some (errorString "index refused")) |}
  = CallCreateIndex "docs" "embedding"
      (fst (entity.NewIndexIvfFlat entity.COSINE 1024)) false.
Proof.
  apply (proj1 (buildIndex_request fake.repo "docs" fake.index_refused)).
  rewrite run_buildIndex_index_refused. apply list_elem_of_here.
Defined.

Lemma CreateCollection_succeeds_iff_witness :
  fst (run (CreateCollection fake.repo "docs") fake.healthy) = Ret None.
Proof.
  apply (proj2 (CreateCollection_succeeds_iff fake.repo "docs" fake.healthy)).
  rewrite run_CreateCollection_healthy.
  split; [reflexivity|]. split; [reflexivity|].
  intros ev Hev. cbn in Hev.
  repeat (apply elem_of_cons in Hev as [->|Hev]; [reflexivity|]).
  by apply elem_of_nil in Hev.
Defined.

Lemma CreateCollection_calls_prefix_witness :
  2%nat
  = length (trace (snd (run (CreateCollection fake.repo "docs")
                            fake.index_refused))) /\
  fst (run (CreateCollection fake.repo "docs") fake.index_refused)
  = Ret (Some (Errorf_w "failed to build index: "
                 (Errorf_w "fail to create index: "
                    (errorString "index refused")))).
Proof.
  destruct (proj2 (proj2 (CreateCollection_calls_prefix fake.repo "docs"
                            fake.index_refused))
              1%nat
              {| request := CallCreateIndex (H:=fake.api) "docs" "embedding"
                              (Some (entity.COSINE, 1024)) false;
                 reply := ReplyError (Some (errorString "index refused")) |}
              (errorString "index refused"))
    as (Hlast & _ & Hindex & _).
  - by rewrite run_CreateCollection_index_refused.
  - reflexivity.
  - split; [exact Hlast|]. apply Hindex. reflexivity.
Defined.

Lemma CreateCollection_indexes_schema_vector_field_witness :
  exists schema shards fieldName idx f,
    trace (snd (run (CreateCollection fake.repo "docs") fake.healthy))
      !! 0%nat
    = Some {| request := CallCreateCollection schema shards;
              reply := ReplyError None |} /\
    request {| request := CallCreateIndex (H:=fake.api) "docs" "embedding"
                            (Some (entity.COSINE, 1024)) false;
               reply := ReplyError None |}
    = CallCreateIndex (entity.CollectionName schema) fieldName idx false /\
    f ∈ entity.Fields schema /\
    entity.Name f = fieldName /\
    entity.DataType f = entity.FieldTypeFloatVector /\
    forall g, g ∈ entity.Fields schema ->
      entity.DataType g = entity.FieldTypeFloatVector -> g = f.
Proof.
  apply (CreateCollection_indexes_schema_vector_field fake.repo "docs"
           fake.healthy).
  - rewrite run_CreateCollection_healthy.
    apply list_elem_of_further, list_elem_of_here.
  - reflexivity.
Defined.

(** *** X7 to X14, X21 *)

Lemma Search_encode_failure_makes_no_backend_call_witness :
  fst (run (Search fake.repo "docs" "q") fake.encoder_down)
  = Ret ([], Some (Errorf_w "fail to encode query: "
                     (errorString "encoder unavailable"))) /\
  trace (snd (run (Search fake.repo "docs" "q") fake.encoder_down))
  = [ {| request := CallEncode "q";
         reply := ReplyVector (H:=fake.api) []
                    (Some (errorString "encoder unavailable")) |} ].
Proof.
  apply (Search_encode_failure_makes_no_backend_call fake.repo "docs" "q"
           fake.encoder_down).
  - rewrite run_Search_encoder_down. apply list_elem_of_here.
  - reflexivity.
  - reflexivity.
Defined.

Lemma Search_load_failure_skips_search_witness :
  fst (run (Search fake.repo "docs" "q") fake.load_down)
  = Ret ([], Some (Errorf_w "failed to load collection: "
                     (errorString "collection not found"))) /\
  count is_search
    (trace (snd (run (Search fake.repo "docs" "q") fake.load_down)))
  = 0%nat /\
  count is_release
    (trace (snd (run (Search fake.repo "docs" "q") fake.load_down)))
  = 0%nat.
Proof.
  apply (Search_load_failure_skips_search fake.repo "docs" "q"
           fake.load_down
           {| request := CallLoadCollection (H:=fake.api) "docs" false;
              reply := ReplyError
                         (Some (errorString "collection not found")) |}).
  - rewrite run_Search_load_down.
    apply list_elem_of_further, list_elem_of_here.
  - reflexivity.
  - reflexivity.
Defined.

Lemma Search_request_carries_encoded_query_witness :
  exists v,
    trace (snd (run (Search fake.repo "docs" "q") fake.healthy)) !! 0%nat
    = Some {| request := CallEncode "q"; reply := ReplyVector v None |} /\
    client.vectors (sent (H:=fake.api) "docs" [1]) = [v].
Proof.
  destruct (Search_request_carries_encoded_query fake.repo "docs" "q"
              fake.healthy (sent (H:=fake.api) "docs" [1]))
    as (v & H0 & _ & Hv & _).
  - rewrite run_Search_healthy. apply list_elem_of_here.
  - exists v. split; [exact H0|exact Hv].
Defined.

Lemma Search_calls_prefix_witness :
  3%nat
  = length (trace (snd (run (Search fake.repo "docs" "q")
                            fake.search_down))) /\
  exists e',
    fst (run (Search fake.repo "docs" "q") fake.search_down)
    = Ret ([], Some e') /\
    Unwrap e' = Some (errorString "deadline exceeded").
Proof.
  apply (proj2 (proj2 (Search_calls_prefix fake.repo "docs" "q"
                         fake.search_down))
           2%nat
           {| request := CallSearch (sent (H:=fake.api) "docs" [1]);
              reply := ReplyResults []
                         (Some (errorString "deadline exceeded")) |}).
  - by rewrite run_Search_search_down.
  - reflexivity.
Defined.

Lemma Search_succeeds_iff_witness :
  length (trace (snd (run (Search fake.repo "docs" "q") fake.healthy)))
  = 4%nat.
Proof.
  apply (proj1 (Search_succeeds_iff fake.repo "docs" "q" fake.healthy)).
  exists [fake.doc "" "Go" "A language" "tech"].
  by rewrite run_Search_healthy.
Defined.

Lemma Search_panic_leaves_collection_loaded_witness :
  fst (run (Search fake.repo "docs" "q") fake.missing_content)
  = Panic NilDereference /\
  count is_release
    (trace (snd (run (Search fake.repo "docs" "q") fake.missing_content)))
  = 0%nat.
Proof.
  assert (Hr : fst (run (Search fake.repo "docs" "q") fake.missing_content)
               = Panic NilDereference)
    by (by rewrite run_Search_missing_content).
  split; [exact Hr|].
  exact (proj1 (Search_panic_leaves_collection_loaded fake.repo "docs" "q"
                  fake.missing_content NilDereference Hr)).
Defined.

Lemma Search_missing_column_panics_witness :
  fst (run (Search fake.repo "docs" "q") fake.missing_content)
  = Panic NilDereference /\
  count is_release
    (trace (snd (run (Search fake.repo "docs" "q") fake.missing_content)))
  = 0%nat.
Proof.
  apply (Search_missing_column_panics fake.repo "docs" "q"
           fake.missing_content
           (sent (H:=fake.api) "docs" [1])
           (fake.searchResult [fake.ColumnVarChar "title" ["Go"];
                               fake.ColumnVarChar "category" ["tech"]]) []).
  - rewrite run_Search_missing_content.
    do 2 apply list_elem_of_further. apply list_elem_of_here.
  - right. exists (fake.ColumnVarChar "title" ["Go"]), "Go", None.
    split; [reflexivity|]. split; [reflexivity|]. split; [reflexivity|].
    left. reflexivity.
Defined.

Lemma Search_column_panic_propagates_witness :
  fst (run (Search fake.repo "docs" "q") fake.empty_content)
  = Panic (IndexOutOfRange 0 0) /\
  count is_release
    (trace (snd (run (Search fake.repo "docs" "q") fake.empty_content)))
  = 0%nat.
Proof.
  apply (Search_column_panic_propagates fake.repo "docs" "q"
           fake.empty_content
           (sent (H:=fake.api) "docs" [1])
           (fake.searchResult [fake.ColumnVarChar "title" ["Go"];
                               fake.ColumnVarChar "content" [];
                               fake.ColumnVarChar "category" ["tech"]]) []).
  - rewrite run_Search_empty_content.
    do 2 apply list_elem_of_further. apply list_elem_of_here.
  - exists (fake.ColumnVarChar "title" ["Go"]).
    split; [reflexivity|]. split; [reflexivity|]. right.
    exists "Go", None, (fake.ColumnVarChar "content" []).
    split; [reflexivity|]. split; [reflexivity|]. left. reflexivity.
Defined.

Lemma Search_no_hits_witness :
  fst (run (Search fake.repo "docs" "q") fake.no_hits) = Ret ([], None).
Proof.
  destruct (Search_no_hits fake.repo "docs" "q" fake.no_hits
              (sent (H:=fake.api) "docs" [1])
              (fake.searchResult [fake.ColumnVarChar "title" []]) []
              (fake.ColumnVarChar "title" []))
    as (err & Hlast & Hr).
  - rewrite run_Search_no_hits.
    do 2 apply list_elem_of_further. apply list_elem_of_here.
  - reflexivity.
  - discriminate.
  - rewrite run_Search_no_hits in Hlast. injection Hlast as <-. exact Hr.
Defined.

(** *** X15 to X20 *)

Lemma UpsertDocuments_calls_prefix_witness :
  2%nat
  = length (trace (snd (run (UpsertDocuments fake.repo "docs"
                               [fake.doc "1" "Go" "A language" "tech";
                                fake.doc "2" "Nothing" "" "misc";
                                fake.doc "3" "Tea" "A drink" "food"])
                            fake.encoder_picky))) /\
  exists e',
    fst (run (UpsertDocuments fake.repo "docs"
                [fake.doc "1" "Go" "A language" "tech";
                 fake.doc "2" "Nothing" "" "misc";
                 fake.doc "3" "Tea" "A drink" "food"])
             fake.encoder_picky)
    = Ret (Some e') /\
    Unwrap e' = Some (errorString "nothing to encode").
Proof.
  apply (proj2 (proj2 (UpsertDocuments_calls_prefix fake.repo "docs"
                         [fake.doc "1" "Go" "A language" "tech";
                          fake.doc "2" "Nothing" "" "misc";
                          fake.doc "3" "Tea" "A drink" "food"]
                         fake.encoder_picky))
           1%nat
           {| request := CallEncode "";
              reply := ReplyVector (H:=fake.api) []
                         (Some (errorString "nothing to encode")) |}).
  - by rewrite run_UpsertDocuments_encoder_picky.
  - reflexivity.
Defined.

Lemma UpsertDocuments_succeeds_iff_witness :
  length (trace (snd (run (UpsertDocuments fake.repo "docs"
                             [fake.doc "1" "Go" "A language" "tech";
                              fake.doc "2" "Tea" "A drink" "food"])
                          fake.healthy)))
  = 3%nat.
Proof.
  apply (proj1 (UpsertDocuments_succeeds_iff fake.repo "docs"
                  [fake.doc "1" "Go" "A language" "tech";
                   fake.doc "2" "Tea" "A drink" "food"] fake.healthy)).
  by rewrite run_UpsertDocuments_healthy.
Defined.

Lemma UpsertDocuments_upsert_failure_witness :
  fst (run (UpsertDocuments fake.repo "docs"
              [fake.doc "1" "Go" "A language" "tech";
               fake.doc "2" "Tea" "A drink" "food"])
           fake.upsert_down)
  = Ret (Some (Errorf_w "fail to upsert data, err: "
                 (errorString "content too long"))) /\
  count is_encode
    (trace (snd (run (UpsertDocuments fake.repo "docs"
                        [fake.doc "1" "Go" "A language" "tech";
                         fake.doc "2" "Tea" "A drink" "food"])
                     fake.upsert_down)))
  = 2%nat.
Proof.
  destruct (UpsertDocuments_upsert_failure fake.repo "docs"
              [fake.doc "1" "Go" "A language" "tech";
               fake.doc "2" "Tea" "A drink" "food"] fake.upsert_down
              {| request :=
                   CallUpsert (H:=fake.api) "docs" ""
                     [ fake.ColumnVarChar "id" ["1"; "2"];
                       fake.ColumnVarChar "title" ["Go"; "Tea"];
                       fake.ColumnVarChar "content" ["A language"; "A drink"];
                       fake.ColumnVarChar "category" ["tech"; "food"];
                       fake.ColumnFloatVector "embedding" 4096 [[10]; [7]] ];
                 reply := ReplyColumn None
                            (Some (errorString "content too long")) |}
              (errorString "content too long"))
    as (Hr & Hcount & _).
  - rewrite run_UpsertDocuments_upsert_down.
    do 2 apply list_elem_of_further. apply list_elem_of_here.
  - reflexivity.
  - reflexivity.
  - split; [exact Hr|exact Hcount].
Defined.

Lemma UpsertDocuments_columns_match_schema_witness :
  fake.Name
    <$> [ fake.ColumnVarChar "id" ["1"; "2"];
          fake.ColumnVarChar "title" ["Go"; "Tea"];
          fake.ColumnVarChar "content" ["A language"; "A drink"];
          fake.ColumnVarChar "category" ["tech"; "food"];
          fake.ColumnFloatVector "embedding" 4096 [[10]; [7]] ]
  = entity.Name <$> entity.Fields (defineSchema (H:=fake.api) "docs").
Proof.
  apply (UpsertDocuments_columns_match_schema fake.repo "docs"
           [fake.doc "1" "Go" "A language" "tech";
            fake.doc "2" "Tea" "A drink" "food"] fake.healthy
           {| request :=
                CallUpsert (H:=fake.api) "docs" ""
                  [ fake.ColumnVarChar "id" ["1"; "2"];
                    fake.ColumnVarChar "title" ["Go"; "Tea"];
                    fake.ColumnVarChar "content" ["A language"; "A drink"];
                    fake.ColumnVarChar "category" ["tech"; "food"];
                    fake.ColumnFloatVector "embedding" 4096 [[10]; [7]] ];
              reply := ReplyColumn None None |}
           "docs" "").
  - reflexivity.
  - reflexivity.
  - rewrite run_UpsertDocuments_healthy.
    do 2 apply list_elem_of_further. apply list_elem_of_here.
  - reflexivity.
Defined.

Lemma Search_fields_in_schema_witness :
  exists f,
    f ∈ entity.Fields (defineSchema (H:=fake.api) "docs") /\
    entity.Name f = client.vectorField (sent (H:=fake.api) "docs" [1]) /\
    entity.DataType f = entity.FieldTypeFloatVector.
Proof.
  apply (proj1 (proj2 (Search_fields_in_schema fake.repo "docs" "q"
                         fake.healthy (sent (H:=fake.api) "docs" [1])
                         ltac:(rewrite run_Search_healthy;
                               apply list_elem_of_here)))).
Defined.

End Concrete.
